(** * prp_runner: driving an agent CLI against a PRP document

    A shallow embedding of [PRPs/scripts/prp_runner.py].  Python strings are
    sequences of Unicode code points; the operating system, the [json] module
    and [pathlib] are collaborators of the script and appear as the fields of
    a record of oracles; printing, spawning a child, reading and writing files
    and changing the working directory are logged as events, in order. *)

From Stdlib Require Import List String Ascii NArith ZArith Bool Lia.
Import ListNotations.

Set Warnings "-register-all".

Local Open Scope N_scope.
Local Open Scope list_scope.

(** ** Python strings *)

Module PyStr.

(** A [str] is its sequence of code points. *)
Definition pystr := list N.

(** An ASCII literal of the source. *)
Definition py (s : string) : pystr :=
  List.map N_of_ascii (list_ascii_of_string s).

Definition quote : pystr := [34].

Fixpoint eqb (a b : pystr) : bool :=
  match a, b with
  | [], [] => true
  | x :: a', y :: b' => N.eqb x y && eqb a' b'
  | _, _ => false
  end.

(** [str.splitlines] ends a line at each of these (CPython's
    [_PyUnicode_IsLinebreak]); a carriage return followed by a line feed
    counts once. *)
Definition is_linebreak (c : N) : bool :=
  (N.leb 10 c && N.leb c 13) || (N.leb 28 c && N.leb c 30)
  || N.eqb c 133 || N.eqb c 8232 || N.eqb c 8233.

(** [str.strip()] without argument removes these (CPython's
    [_PyUnicode_IsWhitespace]). *)
Definition is_space (c : N) : bool :=
  (N.leb 9 c && N.leb c 13) || (N.leb 28 c && N.leb c 32)
  || N.eqb c 133 || N.eqb c 160 || N.eqb c 5760
  || (N.leb 8192 c && N.leb c 8202)
  || N.eqb c 8232 || N.eqb c 8233 || N.eqb c 8239 || N.eqb c 8287
  || N.eqb c 12288.

Fixpoint dropwhile (f : N -> bool) (s : pystr) : pystr :=
  match s with
  | [] => []
  | c :: s' => if f c then dropwhile f s' else s
  end.

Definition strip_with (f : N -> bool) (s : pystr) : pystr :=
  rev (dropwhile f (rev (dropwhile f s))).

(** [s.strip()] *)
Definition strip (s : pystr) : pystr := strip_with is_space s.

(** [s.strip(chars)] *)
Definition strip_chars (chars s : pystr) : pystr :=
  strip_with (fun c => existsb (N.eqb c) chars) s.

(** [s.splitlines()]: the lines of [s] without their line ends; no empty
    last line after a final line end. *)
Fixpoint splitlines (s : pystr) : list pystr :=
  match s with
  | [] => []
  | c :: rest =>
      if is_linebreak c then
        [] :: match rest with
              | d :: rest' =>
                  if N.eqb c 13 && N.eqb d 10 then splitlines rest'
                  else splitlines rest
              | [] => []
              end
      else
        match splitlines rest with
        | [] => [[c]]
        | l :: ls => (c :: l) :: ls
        end
  end.

(** [sep.join(parts)] *)
Fixpoint join (sep : pystr) (parts : list pystr) : pystr :=
  match parts with
  | [] => []
  | [p] => p
  | p :: ps => p ++ sep ++ join sep ps
  end.

(** [s.lower()] for a string of ASCII characters: the letters A to Z. *)
Definition ascii_lower (s : pystr) : pystr :=
  List.map (fun c => if N.leb 65 c && N.leb c 90 then c + 32 else c) s.

Definition is_ascii (s : pystr) : bool := forallb (fun c => N.ltb c 128) s.

(** [s.lower()]: the letters A to Z in a string of ASCII characters, and
    what [unicode_lower] says for a string that holds any other character
    (Unicode's tables and its rule for the final sigma). *)
Definition lower_with (unicode_lower : pystr -> pystr) (s : pystr) : pystr :=
  if is_ascii s then ascii_lower s else unicode_lower s.

(** What reading in text mode makes of the line ends (universal newlines):
    a carriage return, with the line feed after it if there is one, becomes
    one line feed. *)
Fixpoint universal_newlines (s : pystr) : pystr :=
  match s with
  | [] => []
  | c :: rest =>
      if N.eqb c 13 then
        10 :: match rest with
              | d :: rest' =>
                  if N.eqb d 10 then universal_newlines rest'
                  else universal_newlines rest
              | [] => []
              end
      else c :: universal_newlines rest
  end.

(** [s.startswith(p)] *)
Fixpoint startswith (p s : pystr) : bool :=
  match p, s with
  | [], _ => true
  | x :: p', y :: s' => N.eqb x y && startswith p' s'
  | _ :: _, [] => false
  end.

End PyStr.
Import PyStr.

(** ** The prompt header *)

Definition META_HEADER : pystr :=
  py "Ingest and understand the Product Requirement Prompt (PRP) below in detail.

    # WORKFLOW GUIDANCE:

    ## Planning Phase
    - Think hard before you code. Create a comprehensive plan addressing all requirements.
    - Break down complex tasks into smaller, manageable steps.
    - Use the TodoWrite tool to create and track your implementation plan.
    - Identify implementation patterns from existing code to follow.

    ## Implementation Phase
    - Follow code conventions and patterns found in existing files.
    - Implement one component at a time and verify it works correctly.
    - Write clear, maintainable code with appropriate comments.
    - Consider error handling, edge cases, and potential security issues.
    - Use type hints to ensure type safety.

    ## Testing Phase
    - Test each component thoroughly as you build it.
    - Use the provided validation gates to verify your implementation.
    - Verify that all requirements have been satisfied.
    - Run the project tests when finished and output " ++ quote ++ py "DONE" ++ quote ++ py " when they pass.

    ## Example Implementation Approach:
    1. Analyze the PRP requirements in detail
    2. Search for and understand existing patterns in the codebase
    3. Search the Web and gather additional context and examples
    4. Create a step-by-step implementation plan with TodoWrite
    5. Implement core functionality first, then additional features
    6. Test and validate each component
    7. Ensure all validation gates pass

    ***When you are finished, move the completed PRP to the PRPs/completed folder***
    ".

(** ** Command builders *)

Definition ALLOWED_TOOLS : pystr :=
  py "Edit,Bash,Write,MultiEdit,NotebookEdit,WebFetch,Agent,LS,Grep,Read,NotebookRead,TodoRead,TodoWrite,WebSearch".

(** [" ".join(line.strip() for line in prompt.splitlines()).strip()] *)
Definition flatten (prompt : pystr) : pystr :=
  strip (join (py " ") (List.map strip (splitlines prompt))).

Definition _build_cmd_codex (interactive : bool) (output_format cli prompt : pystr)
  : list pystr :=
  if interactive then
    let flat := flatten prompt in
    [cli; flat]
  else
    let flat := flatten prompt in
    [cli; flat].

Definition _build_cmd_claude (interactive : bool) (output_format cli prompt : pystr)
  : list pystr :=
  if interactive then
    [cli; py "--allowedTools"; ALLOWED_TOOLS]
  else
    [cli; py "-p"; prompt; py "--allowedTools"; ALLOWED_TOOLS;
     py "--output-format"; output_format].

(** ** JSON values, as [json.loads] returns them *)

Inductive json : Type :=
| JNull
| JBool (b : bool)
| JInt (n : Z)
| JFloat (m e : Z)                       (* the float m * 2^e *)
| JStr (s : pystr)
| JArr (items : list json)
| JObj (fields : list (pystr * json)).  (* a dict, in insertion order *)

(** What [json.loads] raises besides JSONDecodeError. *)
Inductive load_error : Type :=
| NestedTooDeep      (* RecursionError: lists or objects nested too deep *)
| IntegerTooLong.    (* ValueError: an integer of more than 4300 digits *)

(** What [json.loads] does with a text. *)
Inductive loaded : Type :=
| Loaded (value : json)
| JSONDecodeError (msg : pystr)      (* raised, with this text *)
| LoadRaised (e : load_error).

(** [d.get(key)] on the fields of a dict *)
Fixpoint dict_get (key : pystr) (fields : list (pystr * json)) : option json :=
  match fields with
  | [] => None
  | (k, v) :: rest => if PyStr.eqb k key then Some v else dict_get key rest
  end.

(** [d.get(key, default)] *)
Definition dict_get_default (key : pystr) (default : json)
  (fields : list (pystr * json)) : json :=
  match dict_get key fields with
  | Some v => v
  | None => default
  end.

(** [value == "text"] for a value that came out of a dict *)
Definition is_str (v : option json) (text : pystr) : bool :=
  match v with
  | Some (JStr s) => PyStr.eqb s text
  | _ => false
  end.

(** Python's truth value of a JSON value *)
Definition truthy (v : json) : bool :=
  match v with
  | JNull => false
  | JBool b => b
  | JInt n => negb (Z.eqb n 0)
  | JFloat m _ => negb (Z.eqb m 0)
  | JStr s => match s with [] => false | _ => true end
  | JArr l => match l with [] => false | _ => true end
  | JObj kv => match kv with [] => false | _ => true end
  end.

Definition bool_str (b : bool) : pystr := if b then py "True" else py "False".

(** ** Effects *)

Definition Path := pystr.

(** How a child's standard streams are connected. *)
Inductive io_mode : Type :=
| Inherit      (* subprocess.run(cmd, ...): the caller's own streams *)
| Capture      (* subprocess.run(cmd, capture_output=True, text=True) *)
| Pipe.        (* subprocess.Popen(cmd, stdout=PIPE, stderr=PIPE, ...) *)

Inductive exn : Type :=
| FileNotFoundError
| OSError (msg : pystr)              (* an OSError of another kind *)
| CalledProcessError (returncode : Z)
| Unexpected (what : string)         (* AttributeError, TypeError, ValueError *)
| RecursionError
| KeyboardInterrupt.

Definition exn_of_load_error (e : load_error) : exn :=
  match e with
  | NestedTooDeep => RecursionError
  | IntegerTooLong => Unexpected "ValueError"
  end.

(** What [except Exception] catches: all of the above but the interrupt. *)
Definition is_Exception (e : exn) : bool :=
  match e with
  | KeyboardInterrupt => false
  | _ => true
  end.

(** What becomes of a child process. *)
Inductive child : Type :=
| NotFound                            (* FileNotFoundError at launch *)
| LaunchFailed (msg : pystr)          (* another OSError at launch *)
| Exited (returncode : Z) (out : list pystr) (err : pystr)
| Interrupted (out : list pystr).     (* Ctrl-C after these lines of output *)

Inductive event : Type :=
| Stdout (text : pystr)               (* print(text) *)
| Stderr (text : pystr)               (* print(text, file=sys.stderr) *)
| Chdir (dir : Path)
| ReadText (cwd : Path) (file : Path)
| WriteText (file : Path) (text : pystr) (* file.write_text(text) is called *)
| Spawn (cwd : Path) (cmd : list pystr) (mode : io_mode)
| Terminate.                          (* process.terminate() *)

(** The argument of [sys.exit]. *)
Inductive exit_arg : Type :=
| ExitCode (n : Z)
| ExitMsg (msg : pystr).

Inductive outcome (A : Type) : Type :=
| Done (a : A)
| Exit (arg : exit_arg)               (* SystemExit *)
| Raised (e : exn).

Arguments Done {A} a.
Arguments Exit {A} arg.
Arguments Raised {A} e.

(** The collaborators of the script: the operating system, [shutil],
    [pathlib], [json] and string formatting.  File and process operations
    take the working directory of the moment. *)
Record OS : Type := {
  which : Path -> pystr -> option pystr;            (* shutil.which(name) *)
  platform_win : bool;                              (* sys.platform.startswith("win") *)
  spawn : Path -> list pystr -> io_mode -> child;
  path_exists : Path -> Path -> bool;               (* p.exists() *)
  read_bytes : Path -> Path -> list N + exn;        (* the bytes of the file p, or the OSError *)
  decode : list N -> pystr + exn;                   (* in the locale's encoding, or UnicodeDecodeError *)
  script_file : Path;                               (* Path(__file__).resolve() *)
  path_of : pystr -> Path;                          (* Path(text) *)
  path_parent : Path -> Path;                       (* p.parent *)
  path_join : Path -> pystr -> Path;                (* p / text *)
  json_loads : pystr -> loaded;                     (* json.loads(text) *)
  json_dumps : json -> pystr;                       (* json.dumps(v) *)
  json_dumps_indent : json -> pystr;                (* json.dumps(v, indent=2) *)
  py_str : json -> pystr;                           (* str(v), as an f-string shows v *)
  fmt_4f : json -> pystr + exn;                     (* format(v, ".4f") *)
  format_exc : exn -> pystr;                        (* traceback.format_exc() *)
  unicode_lower : pystr -> pystr;                   (* s.lower() beyond ASCII *)
  lower_stable :                                    (* lowering twice is lowering once *)
    forall s, lower_with unicode_lower (lower_with unicode_lower s)
              = lower_with unicode_lower s;
  windows_status : Z -> Z;                          (* the exit status of sys.exit(n) on Windows *)
  windows_status_small :
    forall n, (0 <= n < 2147483648)%Z -> windows_status n = n
}.

(** [s.lower()] *)
Definition lower (os : OS) (s : pystr) : pystr := lower_with (unicode_lower os) s.

(** [p.read_text()]: the file is opened in text mode, its bytes are decoded
    and the line ends translated. *)
Definition read_text (os : OS) (cwd p : Path) : pystr + exn :=
  match read_bytes os cwd p with
  | inl bytes =>
      match decode os bytes with
      | inl text => inl (universal_newlines text)
      | inr e => inr e
      end
  | inr e => inr e
  end.

(** The exit status the caller sees after [sys.exit(n)].  On POSIX it is
    the low eight bits of [n] taken as a C long (of 64 bits), and those of
    -1 when [n] does not fit in one. *)
Definition exit_status (os : OS) (n : Z) : Z :=
  if platform_win os then windows_status os n
  else if Z.leb (- 9223372036854775808) n && Z.ltb n 9223372036854775808
       then (n mod 256)%Z
       else 255%Z.

(** A computation runs from a working directory and gives an outcome, the
    working directory it leaves and the events it caused, oldest first. *)
Definition M (A : Type) : Type := Path -> outcome A * Path * list event.

Definition ret {A} (a : A) : M A := fun cwd => (Done a, cwd, []).

Definition bind {A B} (m : M A) (k : A -> M B) : M B :=
  fun cwd =>
    match m cwd with
    | (Done a, cwd1, log1) =>
        let '(r, cwd2, log2) := k a cwd1 in (r, cwd2, log1 ++ log2)
    | (Exit arg, cwd1, log1) => (Exit arg, cwd1, log1)
    | (Raised e, cwd1, log1) => (Raised e, cwd1, log1)
    end.

Declare Scope py_scope.
Delimit Scope py_scope with py.
Notation "x <- m ;; k" := (bind m (fun x => k))
  (at level 100, m at next level, right associativity) : py_scope.
Notation "m ;; k" := (bind m (fun _ => k))
  (at level 100, right associativity) : py_scope.
Notation "m >>= k" := (bind m k) (at level 50, left associativity) : py_scope.
Local Open Scope py_scope.

Definition emit (e : event) : M unit := fun cwd => (Done tt, cwd, [e]).
Definition print (text : pystr) : M unit := emit (Stdout text).
Definition eprint (text : pystr) : M unit := emit (Stderr text).
Definition sys_exit {A} (arg : exit_arg) : M A := fun cwd => (Exit arg, cwd, []).
Definition raise {A} (e : exn) : M A := fun cwd => (Raised e, cwd, []).
Definition getcwd : M Path := fun cwd => (Done cwd, cwd, []).
Definition chdir (dir : Path) : M unit := fun _ => (Done tt, dir, [Chdir dir]).

(** [try: m  except ...: handler e], for the exceptions [handler] names. *)
Definition try_except {A} (m : M A) (handler : exn -> option (M A)) : M A :=
  fun cwd =>
    match m cwd with
    | (Raised e, cwd1, log1) =>
        match handler e with
        | Some h => let '(r, cwd2, log2) := h cwd1 in (r, cwd2, log1 ++ log2)
        | None => (Raised e, cwd1, log1)
        end
    | other => other
    end.

(** Launching [cmd] and waiting for it. *)
Definition launch (os : OS) (cmd : list pystr) (mode : io_mode) : M child :=
  cwd <- getcwd ;;
  emit (Spawn cwd cmd mode) ;;
  ret (spawn os cwd cmd mode).

(** [subprocess.run(cmd, check=True)] *)
Definition subprocess_run_check (os : OS) (cmd : list pystr) : M unit :=
  c <- launch os cmd Inherit ;;
  match c with
  | NotFound => raise FileNotFoundError
  | LaunchFailed msg => raise (OSError msg)
  | Exited rc _ _ => if Z.eqb rc 0 then ret tt else raise (CalledProcessError rc)
  | Interrupted _ => raise KeyboardInterrupt
  end.

(** [subprocess.run(cmd, capture_output=True, text=True)]: return code,
    standard output, standard error. *)
Definition subprocess_run_capture (os : OS) (cmd : list pystr)
  : M (Z * pystr * pystr) :=
  c <- launch os cmd Capture ;;
  match c with
  | NotFound => raise FileNotFoundError
  | LaunchFailed msg => raise (OSError msg)
  | Exited rc out err => ret (rc, List.concat out, err)
  | Interrupted _ => raise KeyboardInterrupt
  end.

(** ** The script *)

Section Script.

Variable os : OS.

(** Project root: three parents up from this file. *)
Definition ROOT : Path :=
  path_parent os (path_parent os (path_parent os (script_file os))).

Definition build_prompt (prp_path : Path) : M pystr :=
  cwd <- getcwd ;;
  emit (ReadText cwd prp_path) ;;
  match read_text os cwd prp_path with
  | inl body => ret (META_HEADER ++ body)
  | inr e => raise e
  end.

(** What the generator [stream_json_output] does with one line after
    another: it yields a message, or prints two warning lines and goes on,
    or ends with an exception of [json.loads] that it does not catch. *)
Inductive stream_item : Type :=
| Yield (message : json)
| Warn (warning content : pystr)
| Abort (e : load_error).

Fixpoint stream_json_output (lines : list pystr) : list stream_item :=
  match lines with
  | [] => []
  | line :: rest =>
      let line := strip line in
      match line with
      | [] => stream_json_output rest
      | _ :: _ =>
          match json_loads os line with
          | Loaded message => Yield message :: stream_json_output rest
          | JSONDecodeError e =>
              Warn (py "Warning: Failed to parse JSON line: " ++ e)
                   (py "Line content: " ++ line)
              :: stream_json_output rest
          | LoadRaised e => [Abort e]
          end
      end
  end.

Definition handle_json_output (output : pystr) : M json :=
  match json_loads os output with
  | Loaded data => ret data
  | JSONDecodeError e =>
      eprint (py "Error parsing JSON output: " ++ e) ;;
      ret (JObj [(py "error", JStr (py "Failed to parse JSON output"));
                 (py "raw", JStr output)])
  | LoadRaised e => raise (exn_of_load_error e)
  end.

(** Defined by the script and called nowhere in it. *)
Definition _ensure_cli_available (executable : pystr) : M unit :=
  cwd <- getcwd ;;
  match which os cwd executable with
  | Some _ => ret tt
  | None =>
      sys_exit (ExitMsg (py "CLI executable not found: '" ++ executable
                         ++ py "'. Set --cli or install it."))
  end.

(** The PowerShell lookup of [run_model], tried with each shell in turn. *)
Fixpoint powershell_lookup (shells : list pystr) (cli : pystr) : M (option pystr) :=
  match shells with
  | [] => ret None
  | pwsh :: more =>
      c <- launch os
             [pwsh; py "-NoProfile"; py "-Command";
              py "(Get-Command " ++ cli
              ++ py " -ErrorAction SilentlyContinue) | Select-Object -ExpandProperty Source"]
             Capture ;;
      match c with
      | Exited _ out _ =>
          let candidate :=
            strip_chars [13; 10; 9; 32] (strip (List.concat out)) in
          cwd <- getcwd ;;
          match candidate with
          | _ :: _ =>
              if path_exists os cwd (path_of os candidate) then ret (Some candidate)
              else powershell_lookup more cli
          | [] => powershell_lookup more cli
          end
      | Interrupted _ => raise KeyboardInterrupt
      | _ => powershell_lookup more cli
      end
  end.

(** Lines 196 to 212 of [run_model]: the path of [cli], if it is found. *)
Definition resolve_cli (cli : pystr) : M (option pystr) :=
  cwd <- getcwd ;;
  match which os cwd cli with
  | Some path => ret (Some path)
  | None =>
      if platform_win os
      then powershell_lookup [py "powershell"; py "pwsh"] cli
      else ret None
  end.

Definition marker : pystr := py "PRP TEST OK".

Definition noop_events : list json :=
  [ JObj [(py "type", JStr (py "system")); (py "subtype", JStr (py "init"));
          (py "session_id", JStr (py "noop-session"))];
    JObj [(py "type", JStr (py "assistant"));
          (py "message", JObj [(py "content", JStr (py "Reading PRP..."))])];
    JObj [(py "type", JStr (py "assistant"));
          (py "message", JObj [(py "content", JStr marker)])];
    JObj [(py "type", JStr (py "result")); (py "subtype", JStr (py "success"));
          (py "result", JStr marker); (py "cost_usd", JFloat 0 0);
          (py "duration_ms", JInt 1); (py "num_turns", JInt 1)] ].

Definition noop_result : json :=
  JObj [(py "type", JStr (py "result")); (py "subtype", JStr (py "success"));
        (py "result", JStr marker); (py "is_error", JBool false);
        (py "cost_usd", JFloat 0 0); (py "duration_ms", JInt 1);
        (py "session_id", JStr (py "noop-session"))].

Fixpoint for_each {A} (items : list A) (body : A -> M unit) : M unit :=
  match items with
  | [] => ret tt
  | x :: rest => body x ;; for_each rest body
  end.

(** The branch [driver == "noop"] of [run_model]. *)
Definition run_noop (prompt : pystr) (interactive : bool) (output_format : pystr)
  : M unit :=
  if interactive then
    print (py "[noop] Interactive session start." ++ [10]) ;;
    print prompt ;;
    print ([10] ++ py "[noop] " ++ marker)
  else if PyStr.eqb output_format (py "stream-json") then
    for_each noop_events (fun e => print (json_dumps os e))
  else if PyStr.eqb output_format (py "json") then
    print (json_dumps os noop_result)
  else
    print marker.

(** [f"{v:.4f}"] *)
Definition format_4f (v : json) : M pystr :=
  match fmt_4f os v with
  | inl text => ret text
  | inr e => raise e
  end.

(** The body of the loop over the streamed messages. *)
Definition show_message (message : json) : M unit :=
  match message with
  | JObj fields =>
      (if is_str (dict_get (py "type") fields) (py "system")
          && is_str (dict_get (py "subtype") fields) (py "init")
       then
         eprint (py "Session started: "
                 ++ py_str os (dict_get_default (py "session_id") JNull fields))
       else if is_str (dict_get (py "type") fields) (py "assistant") then
         match dict_get_default (py "message") (JObj []) fields with
         | JObj inner =>
             match dict_get_default (py "content") (JStr []) inner with
             | JStr text =>
                 eprint (py "Assistant: " ++ py_str os (JStr (firstn 100 text)) ++ py "...")
             | JArr items =>
                 eprint (py "Assistant: " ++ py_str os (JArr (firstn 100 items)) ++ py "...")
             | _ => raise (Unexpected "content cannot be sliced")
             end
         | _ => raise (Unexpected "message has no get")
         end
       else if is_str (dict_get (py "type") fields) (py "result") then
         eprint ([10] ++ py "Final result:") ;;
         eprint (py "  Success: "
                 ++ bool_str (is_str (dict_get (py "subtype") fields) (py "success"))) ;;
         cost <- format_4f (dict_get_default (py "cost_usd") (JInt 0) fields) ;;
         eprint (py "  Cost: $" ++ cost) ;;
         eprint (py "  Duration: "
                 ++ py_str os (dict_get_default (py "duration_ms") (JInt 0) fields)
                 ++ py "ms") ;;
         eprint (py "  Turns: "
                 ++ py_str os (dict_get_default (py "num_turns") (JInt 0) fields)) ;;
         if truthy (dict_get_default (py "result") JNull fields) then
           eprint ([10] ++ py "Result text:" ++ [10]
                   ++ py_str os (dict_get_default (py "result") JNull fields))
         else ret tt
       else ret tt) ;;
      print (json_dumps os message)
  | _ => raise (Unexpected "message has no get")
  end.

(** One turn of [for message in stream_json_output(process)]. *)
Definition stream_step (item : stream_item) : M unit :=
  match item with
  | Yield message => show_message message
  | Warn warning content => eprint warning ;; eprint content
  | Abort e => raise (exn_of_load_error e)
  end.

(** The summary of the [json] mode. *)
Definition show_summary (json_data : json) : M unit :=
  match json_data with
  | JObj fields =>
      if is_str (dict_get (py "type") fields) (py "result") then
        eprint ([10] ++ py "Summary:") ;;
        eprint (py "  Success: "
                ++ bool_str (negb (truthy (dict_get_default (py "is_error") (JBool false) fields)))) ;;
        cost <- format_4f (dict_get_default (py "cost_usd") (JInt 0) fields) ;;
        eprint (py "  Cost: $" ++ cost) ;;
        eprint (py "  Duration: "
                ++ py_str os (dict_get_default (py "duration_ms") (JInt 0) fields)
                ++ py "ms") ;;
        eprint (py "  Session: "
                ++ py_str os (dict_get_default (py "session_id") (JStr (py "unknown")) fields))
      else ret tt
  | _ => ret tt
  end.

Definition report_failure (returncode : Z) (stderr : pystr) : M unit :=
  eprint (py "Runner failed with exit code " ++ py_str os (JInt returncode)) ;;
  eprint (py "Error: " ++ stderr) ;;
  sys_exit (ExitCode returncode).

Definition build_cmd (driver : pystr) (interactive : bool)
  (output_format cli prompt : pystr) : M (list pystr) :=
  if PyStr.eqb driver (py "codex") then
    ret (_build_cmd_codex interactive output_format cli prompt)
  else if PyStr.eqb driver (py "claude") then
    ret (_build_cmd_claude interactive output_format cli prompt)
  else
    sys_exit (ExitMsg (py "Unknown driver: " ++ driver
                       ++ py " (expected 'codex' or 'claude')")).

(** The headless paths, lines 269 to 377; [fallback] is the call
    [run_model(prompt, driver="noop", ...)]. *)
Definition run_headless (cmd : list pystr) (output_format : pystr)
  (fallback : M unit) : M unit :=
  if PyStr.eqb output_format (py "stream-json") then
    c <- launch os cmd Pipe ;;
    match c with
    | NotFound => raise FileNotFoundError
    | LaunchFailed msg => raise (OSError msg)
    | Exited rc out err =>
        for_each (stream_json_output out) stream_step ;;
        if Z.eqb rc 0 then ret tt else report_failure rc err
    | Interrupted out =>
        for_each (stream_json_output out) stream_step ;;
        emit Terminate ;;
        eprint ([10] ++ py "Interrupted by user") ;;
        sys_exit (ExitCode 1)
    end
  else if PyStr.eqb output_format (py "json") then
    try_except
      (r <- subprocess_run_capture os cmd ;; ret (Some r))
      (fun e =>
         match e with
         | FileNotFoundError =>
             Some (eprint (py "Headless CLI '" ++ hd [] cmd
                           ++ py "' not found. Falling back to local 'noop' driver.") ;;
                   fallback ;;
                   ret None)
         | _ => None
         end) >>=
    (fun r =>
       match r with
       | None => ret tt
       | Some (rc, stdout, stderr) =>
           if Z.eqb rc 0 then
             json_data <- handle_json_output stdout ;;
             print (json_dumps_indent os json_data) ;;
             show_summary json_data
           else report_failure rc stderr
       end)
  else
    subprocess_run_check os cmd.

(** [if cli is None: cli = "codex" if driver == "codex" else "claude"] *)
Definition cli_name (driver : pystr) (cli : option pystr) : pystr :=
  match cli with
  | None => if PyStr.eqb driver (py "codex") then py "codex" else py "claude"
  | Some name => name
  end.

(** The body of [run_model]; its calls to itself go to the parameter
    [run_model]. *)
Definition run_model_body
  (run_model : pystr -> pystr -> option pystr -> bool -> pystr -> M unit)
  (prompt driver : pystr) (cli : option pystr)
  (interactive : bool) (output_format : pystr) : M unit :=
  let driver := lower os driver in
  if PyStr.eqb driver (py "noop") then
    run_noop prompt interactive output_format
  else
    let cli := cli_name driver cli in
    let fallback := run_model prompt (py "noop") None interactive output_format in
    let run_with (cli : pystr) : M unit :=
      cmd <- build_cmd driver interactive output_format cli prompt ;;
      if interactive then
        try_except (subprocess_run_check os cmd)
          (fun e =>
             match e with
             | FileNotFoundError =>
                 Some (eprint (py "Interactive CLI '" ++ hd [] cmd
                               ++ py "' not found. Falling back to local 'noop' driver.") ;;
                       fallback)
             | OSError msg =>
                 Some (eprint (py "Interactive launch failed: " ++ msg
                               ++ py ". Falling back to headless text run.") ;;
                       run_model prompt driver (Some cli) false (py "text"))
             | _ => None
             end)
      else
        run_headless cmd output_format fallback in
    resolved_cli <- resolve_cli cli ;;
    match resolved_cli with
    | None =>
        if PyStr.eqb driver (py "codex") || PyStr.eqb driver (py "claude") then
          eprint (py "CLI executable not found: '" ++ cli
                  ++ py "'. Falling back to local 'noop' driver.") ;;
          fallback
        else run_with cli
    | Some path => run_with path
    end.

(** [run_model], with [fuel] bounding the depth of its calls to itself. *)
Fixpoint run_model_fuel (fuel : nat)
  : pystr -> pystr -> option pystr -> bool -> pystr -> M unit :=
  match fuel with
  | O => fun _ _ _ _ _ => raise RecursionError
  | S fuel' => run_model_body (run_model_fuel fuel')
  end.

(** A call goes at most three deep: interactive, headless retry, noop. *)
Definition run_model : pystr -> pystr -> option pystr -> bool -> pystr -> M unit :=
  run_model_fuel 3.

(** The parsed command line. *)
Record Args : Type := {
  arg_prp_path : option pystr;
  arg_prp : option pystr;
  arg_interactive : bool;
  arg_driver : pystr;
  arg_cli : option pystr;
  arg_output_format : pystr
}.

(** An option that was given, and not as the empty string. *)
Definition given (a : option pystr) : bool :=
  match a with
  | Some (_ :: _) => true
  | _ => false
  end.

(** The document [main] selects. *)
Definition selected_prp (args : Args) : Path :=
  match arg_prp_path args with
  | Some (c :: rest) => path_of os (c :: rest)
  | _ =>
      path_join os ROOT
        (py "PRPs/" ++ match arg_prp args with Some name => name | None => [] end
         ++ py ".md")
  end.

Definition main (args : Args) : M unit :=
  if negb (given (arg_prp_path args)) && negb (given (arg_prp args)) then
    sys_exit (ExitMsg (py "Must supply --prp or --prp-path"))
  else
    let prp_path := selected_prp args in
    cwd <- getcwd ;;
    if negb (path_exists os cwd prp_path) then
      sys_exit (ExitMsg (py "PRP not found: " ++ prp_path))
    else
      chdir ROOT ;;
      prompt <- build_prompt prp_path ;;
      try_except
        (run_model prompt (arg_driver args) (arg_cli args)
           (arg_interactive args) (arg_output_format args))
        (fun e =>
           if is_Exception e then
             let err_path := path_join os ROOT (py "erreur.txt") in
             Some (emit (WriteText err_path (format_exc os e)) ;;
                   eprint (py "An unexpected error occurred. See '" ++ err_path
                           ++ py "' for details.") ;;
                   sys_exit (ExitCode 1))
           else None).

(** How the process ends. *)
Inductive ending : Type :=
| Status (code : Z)
| Interrupt.

(** [if __name__ == "__main__": main()], started in directory [cwd]: the
    interpreter turns what [main] leaves into the exit status. *)
Definition run_script (args : Args) (cwd : Path) : ending * list event :=
  match main args cwd with
  | (Done _, _, log) => (Status 0, log)
  | (Exit (ExitCode n), _, log) => (Status (exit_status os n), log)
  | (Exit (ExitMsg msg), _, log) => (Status 1, log ++ [Stderr msg])
  | (Raised KeyboardInterrupt, _, log) => (Interrupt, log)
  | (Raised e, _, log) => (Status 1, log ++ [Stderr (format_exc os e)])
  end.

End Script.

(** ** Reading a run *)

Definition result_of {A} (r : outcome A * Path * list event) : outcome A := fst (fst r).
Definition cwd_of {A} (r : outcome A * Path * list event) : Path := snd (fst r).
Definition log_of {A} (r : outcome A * Path * list event) : list event := snd r.

(** The messages a stream yields, and the lines it skips. *)
Definition yielded (items : list stream_item) : list json :=
  flat_map (fun i => match i with Yield m => [m] | _ => [] end) items.

Definition warned (items : list stream_item) : list (pystr * pystr) :=
  flat_map (fun i => match i with Warn w c => [(w, c)] | _ => [] end) items.

(** The stream ended with an exception of [json.loads]. *)
Definition aborted (items : list stream_item) : bool :=
  existsb (fun i => match i with Abort _ => true | _ => false end) items.

(** The lines of a prompt, each trimmed and followed by one space, one after
    the other. *)
Definition spaced_lines (prompt : pystr) : pystr :=
  List.concat (List.map (fun line => strip line ++ [32]) (splitlines prompt)).

(** The commands launched, oldest first. *)
Definition spawned (log : list event) : list (list pystr) :=
  flat_map (fun e => match e with Spawn _ cmd _ => [cmd] | _ => [] end) log.

(** The executables launched: [cmd[0]] of each command. *)
Definition launched_executables (log : list event) : list pystr :=
  List.map (hd []) (spawned log).

(** An event that happens in directory [dir] and does not leave it. *)
Definition stays_in (dir : Path) (e : event) : Prop :=
  match e with
  | Spawn cwd _ _ => cwd = dir
  | ReadText cwd _ => cwd = dir
  | Chdir _ => False
  | _ => True
  end.

(** Every event of [m] satisfies [P]. *)
Definition emits {A} (P : event -> Prop) (m : M A) : Prop :=
  forall cwd, Forall P (log_of (m cwd)).

(** Printing, launching a child and terminating it: no file is read or
    written and the directory is not changed. *)
Definition plain (e : event) : Prop :=
  match e with
  | Stdout _ | Stderr _ | Spawn _ _ _ | Terminate => True
  | Chdir _ | ReadText _ _ | WriteText _ _ => False
  end.

Definition on_stdout (e : event) : Prop :=
  match e with Stdout _ => True | _ => False end.

Definition on_stderr (e : event) : Prop :=
  match e with Stderr _ => True | _ => False end.

(** The trace file [main] writes on an unexpected error. *)
Definition err_path (os : OS) : Path := path_join os (ROOT os) (py "erreur.txt").

(** The launches of the PowerShell lookup. *)
Definition is_powershell_lookup (e : event) : Prop :=
  match e with
  | Spawn _ (shell :: _) Capture => shell = py "powershell" \/ shell = py "pwsh"
  | _ => False
  end.

(** A line with something on it. *)
Definition nonblank (line : pystr) : bool :=
  match line with
  | [] => false
  | _ :: _ => true
  end.

(** The object [handle_json_output] makes of text that does not parse. *)
Definition parse_failure (output : pystr) : json :=
  JObj [(py "error", JStr (py "Failed to parse JSON output"));
        (py "raw", JStr output)].

(** The two drivers that launch a real executable. *)
Definition real_driver (driver : pystr) : Prop :=
  driver = py "codex" \/ driver = py "claude".

(** The command [run_model] builds for a real driver. *)
Definition command_for (driver : pystr) (interactive : bool)
  (output_format cli prompt : pystr) : list pystr :=
  if PyStr.eqb driver (py "codex")
  then _build_cmd_codex interactive output_format cli prompt
  else _build_cmd_claude interactive output_format cli prompt.

(** A computation that stays in the directory it starts in. *)
Definition steady {A} (m : M A) : Prop :=
  forall cwd,
    cwd_of (m cwd) = cwd /\ Forall (stays_in cwd) (log_of (m cwd)).

Definition no_linebreak (s : pystr) : Prop :=
  Forall (fun c => is_linebreak c = false) s.

(** ** A small world to run the script in *)

Module Sample.

(** The parent of [/a/b/c] is [/a/b]. *)
Definition parent (p : Path) : Path :=
  rev (tl (dropwhile (fun c => negb (N.eqb c 47)) (rev p))).

(** How many times [c] stands at the start of [s]. *)
Fixpoint leading (c : N) (s : pystr) : N :=
  match s with
  | x :: rest => if N.eqb x c then N.succ (leading c rest) else 0
  | [] => 0
  end.

(** A parser that knows five documents, and raises RecursionError on a
    text that opens a hundred thousand lists at its start. *)
Definition loads (text : pystr) : loaded :=
  if N.leb 100000 (leading 91 text) then LoadRaised NestedTooDeep
  else if PyStr.eqb text (py "{}") then Loaded (JObj [])
  else if PyStr.eqb text (py "[]") then Loaded (JArr [])
  else if PyStr.eqb text (py "null") then Loaded JNull
  else if PyStr.eqb text (py "true") then Loaded (JBool true)
  else if PyStr.eqb text (py "1") then Loaded (JInt 1)
  else JSONDecodeError (py "Expecting value: line 1 column 1 (char 0)").


(** A hundred thousand lists, one in the other: a JSON document. *)
Definition deep_document : pystr :=
  N.iter 100000 (cons 91) (N.iter 100000 (cons 93) []).

(** Lowering a string of ASCII characters gives one, and lowering it twice
    is lowering it once. *)
Definition ascii_lower_laws (s : pystr) :
  is_ascii (ascii_lower s) = is_ascii s
  /\ ascii_lower (ascii_lower s) = ascii_lower s.
Proof.
  induction s as [|c s [IH1 IH2]]; [split; reflexivity|].
  cbn [ascii_lower List.map is_ascii forallb] in *.
  destruct (N.leb 65 c && N.leb c 90) eqn:E.
  - apply andb_true_iff in E. destruct E as [H1 H2].
    apply N.leb_le in H1, H2.
    assert (H3 : N.leb (c + 32) 90 = false) by (apply N.leb_gt; lia).
    assert (H4 : N.ltb (c + 32) 128 = true) by (apply N.ltb_lt; lia).
    assert (H5 : N.ltb c 128 = true) by (apply N.ltb_lt; lia).
    rewrite H3, H4, H5, andb_false_r. split; [exact IH1 | f_equal; exact IH2].
  - rewrite E. split; [f_equal; exact IH1 | f_equal; exact IH2].
Qed.

(** The law of lowering for a world that leaves other strings alone. *)
Definition lower_law (s : pystr) :
  lower_with (fun t => t) (lower_with (fun t => t) s) = lower_with (fun t => t) s.
Proof.
  unfold lower_with.
  destruct (ascii_lower_laws s) as [H1 H2].
  destruct (is_ascii s) eqn:E.
  - rewrite H1. exact H2.
  - rewrite E. reflexivity.
Qed.

Definition dumps (v : json) : pystr :=
  match v with
  | JNull => py "null"
  | JBool true => py "true"
  | JBool false => py "false"
  | JInt 1 => py "1"
  | JArr [] => py "[]"
  | JObj [] => py "{}"
  | _ => py "{...}"
  end.

Definition prp_file : Path := py "/repo/PRPs/test.md".

Definition prp_text : pystr := py "# Goal" ++ [10] ++ py "Build it." ++ [10].

(** A PRP written on Windows: its lines end in carriage return, line feed. *)
Definition dos_file : Path := py "/repo/PRPs/dos.md".

Definition dos_bytes : list N :=
  py "# Goal" ++ [13; 10] ++ py "Build it." ++ [13; 10].

(** The files of the machine: the PRPs [test] and [dos] of the repository,
    the first also under its relative name from [/repo], and [notes.md] in
    [/work]. *)
Definition file_at (cwd p : Path) : bool :=
  PyStr.eqb p prp_file
  || (PyStr.eqb cwd (py "/repo") && PyStr.eqb p (py "PRPs/test.md"))
  || (PyStr.eqb cwd (py "/work") && PyStr.eqb p (py "notes.md"))
  || PyStr.eqb p dos_file.

(** A POSIX machine: the script lives in [/repo/PRPs/scripts], [found] is
    the executable search and every child ends as [kid]. *)
Definition world (found : pystr -> option pystr) (kid : child) : OS := {|
  which := fun _ name => found name;
  platform_win := false;
  spawn := fun _ _ _ => kid;
  path_exists := file_at;
  read_bytes := fun cwd p =>
    if PyStr.eqb p dos_file then inl dos_bytes
    else if file_at cwd p then inl prp_text
    else inr FileNotFoundError;
  decode := fun bytes => inl bytes;
  script_file := py "/repo/PRPs/scripts/prp_runner.py";
  path_of := fun text => text;
  path_parent := parent;
  path_join := fun p text => p ++ py "/" ++ text;
  json_loads := loads;
  json_dumps := dumps;
  json_dumps_indent := dumps;
  py_str := fun v => match v with JStr s => s | _ => dumps v end;
  fmt_4f := fun _ => inl (py "0.0000");
  format_exc := fun _ => py "Traceback (most recent call last): ...";
  unicode_lower := fun s => s;
  lower_stable := lower_law;
  windows_status := fun n => n;
  windows_status_small := fun n _ => eq_refl
|}.

Definition nothing_found : pystr -> option pystr := fun _ => None.

Definition on_path (name : pystr) : option pystr :=
  Some (py "/usr/local/bin/" ++ name).

(** [--prp test] with the other options as given. *)
Definition args (driver : pystr) (cli : option pystr) (interactive : bool)
  (output_format : pystr) : Args := {|
  arg_prp_path := None;
  arg_prp := Some (py "test");
  arg_interactive := interactive;
  arg_driver := driver;
  arg_cli := cli;
  arg_output_format := output_format
|}.

(** [--prp-path notes.md --driver noop] *)
Definition args_notes : Args := {|
  arg_prp_path := Some (py "notes.md");
  arg_prp := None;
  arg_interactive := false;
  arg_driver := py "noop";
  arg_cli := None;
  arg_output_format := py "text"
|}.

End Sample.

(** A Windows machine on which the search path knows no executable and
    only the second shell, [pwsh], is installed; it finds [claude.exe]. *)
Module SampleWindows.

Definition claude_exe : Path := py "C:\Tools\claude.exe".

Definition kid (cmd : list pystr) : child :=
  match cmd with
  | shell :: _ =>
      if PyStr.eqb shell (py "pwsh") then Exited 0 [claude_exe ++ [13; 10]] []
      else if PyStr.eqb shell claude_exe then Exited 0 [] []
      else NotFound
  | [] => NotFound
  end.

(** An exit code is an unsigned number of 32 bits. *)
Definition status_law (n : Z) :
  (0 <= n < 2147483648)%Z -> (n mod 4294967296)%Z = n.
Proof. intros H. apply Z.mod_small. lia. Qed.

Definition world : OS := {|
  which := fun _ _ => None;
  platform_win := true;
  spawn := fun _ cmd _ => kid cmd;
  path_exists := fun _ p => PyStr.eqb p claude_exe;
  read_bytes := fun _ _ => inr FileNotFoundError;
  decode := fun bytes => inl bytes;
  script_file := py "C:\repo\PRPs\scripts\prp_runner.py";
  path_of := fun text => text;
  path_parent := fun p => p;
  path_join := fun p text => p ++ py "\" ++ text;
  json_loads := Sample.loads;
  json_dumps := Sample.dumps;
  json_dumps_indent := Sample.dumps;
  py_str := fun v => match v with JStr s => s | _ => Sample.dumps v end;
  fmt_4f := fun _ => inl (py "0.0000");
  format_exc := fun _ => py "Traceback (most recent call last): ...";
  unicode_lower := fun s => s;
  lower_stable := Sample.lower_law;
  windows_status := fun n => (n mod 4294967296)%Z;
  windows_status_small := status_law
|}.

End SampleWindows.

(** * Properties *)

(** ** Strings *)

Section StringFacts.

Variable P : N -> Prop.

Lemma dropwhile_Forall f s : Forall P s -> Forall P (dropwhile f s).
Proof.
  induction 1 as [|c s Hc Hs IH]; simpl; [constructor|].
  destruct (f c); [exact IH | constructor; assumption].
Qed.

Lemma strip_with_Forall f s : Forall P s -> Forall P (strip_with f s).
Proof.
  intros H. unfold strip_with.
  apply Forall_rev, dropwhile_Forall, Forall_rev, dropwhile_Forall, H.
Qed.

Lemma join_Forall sep parts :
  Forall P sep -> Forall (Forall P) parts -> Forall P (join sep parts).
Proof.
  intros Hsep. induction 1 as [|p ps Hp Hps IH]; simpl; [constructor|].
  destruct ps as [|q qs]; [exact Hp|].
  apply Forall_app; split; [exact Hp|].
  apply Forall_app; split; [exact Hsep | exact IH].
Qed.

End StringFacts.

Lemma splitlines_no_linebreak s : Forall no_linebreak (splitlines s).
Proof.
  assert (G : forall n s, (List.length s <= n)%nat -> Forall no_linebreak (splitlines s)).
  { clear s. induction n as [|n IH]; intros [|c rest] Hlen; simpl in *;
      try (constructor; fail); try lia.
    destruct (is_linebreak c) eqn:Hc.
    - constructor; [constructor|].
      destruct rest as [|d rest']; [constructor|].
      destruct (N.eqb c 13 && N.eqb d 10); apply IH; simpl in *; lia.
    - assert (Hrest : Forall no_linebreak (splitlines rest)) by (apply IH; lia).
      destruct (splitlines rest) as [|l ls].
      + repeat constructor. exact Hc.
      + inversion Hrest; subst. constructor; [constructor|]; assumption. }
  apply (G (List.length s)). lia.
Qed.

Lemma flatten_no_linebreak prompt : no_linebreak (flatten prompt).
Proof.
  unfold flatten, strip, no_linebreak.
  apply strip_with_Forall, join_Forall.
  - repeat constructor.
  - apply Forall_map.
    eapply Forall_impl; [|apply splitlines_no_linebreak].
    intros l Hl. apply strip_with_Forall, Hl.
Qed.

Lemma no_linebreak_not_In s c : no_linebreak s -> is_linebreak c = true -> ~ In c s.
Proof.
  intros Hs Hc Hin. unfold no_linebreak in Hs. rewrite Forall_forall in Hs.
  specialize (Hs c Hin). congruence.
Qed.

(** What [strip] leaves neither starts nor ends with white space. *)
Lemma dropwhile_head f s :
  match dropwhile f s with [] => True | c :: _ => f c = false end.
Proof.
  induction s as [|c s IH]; simpl; [exact I|].
  destruct (f c) eqn:Hc; [exact IH | exact Hc].
Qed.

Lemma dropwhile_keeps_last f s c :
  f c = false -> dropwhile f (s ++ [c]) = dropwhile f s ++ [c].
Proof.
  intros Hc. induction s as [|d s IH]; simpl.
  - rewrite Hc. reflexivity.
  - destruct (f d); [exact IH | reflexivity].
Qed.

Lemma strip_with_ends f s :
  match strip_with f s with
  | [] => True
  | c :: _ => f c = false
  end
  /\ match rev (strip_with f s) with
     | [] => True
     | c :: _ => f c = false
     end.
Proof.
  unfold strip_with. rewrite rev_involutive. split.
  - pose proof (dropwhile_head f (rev (dropwhile f s))) as Hlast.
    pose proof (dropwhile_head f s) as Hfirst.
    destruct (dropwhile f s) as [|c t] eqn:E; [exact I|].
    change (rev (c :: t)) with (rev t ++ [c]) in *.
    rewrite (dropwhile_keeps_last f (rev t) c Hfirst) in *.
    rewrite rev_app_distr. simpl. exact Hfirst.
  - apply dropwhile_head.
Qed.

Lemma dropwhile_split f s :
  exists pre, s = pre ++ dropwhile f s /\ Forall (fun c => f c = true) pre.
Proof.
  induction s as [|c s (pre & E & Hpre)]; simpl.
  - exists []. split; [reflexivity | constructor].
  - destruct (f c) eqn:Hc.
    + exists (c :: pre). split; [simpl; f_equal; exact E | constructor; assumption].
    + exists []. split; [reflexivity | constructor].
Qed.

(** [strip] only removes white space at the two ends. *)
Lemma strip_with_split f s :
  exists pre post,
    s = pre ++ strip_with f s ++ post
    /\ Forall (fun c => f c = true) pre /\ Forall (fun c => f c = true) post.
Proof.
  unfold strip_with.
  destruct (dropwhile_split f s) as (pre & E1 & Hpre).
  destruct (dropwhile_split f (rev (dropwhile f s))) as (tsop & E2 & Hpost).
  exists pre, (rev tsop). repeat split.
  - rewrite <- rev_app_distr, <- E2, rev_involutive. exact E1.
  - exact Hpre.
  - apply Forall_rev, Hpost.
Qed.

(** ** Command builders *)

Lemma dropwhile_fixed f s :
  match s with [] => True | c :: _ => f c = false end -> dropwhile f s = s.
Proof. destruct s as [|c s]; simpl; [reflexivity|]. intros ->. reflexivity. Qed.

Lemma splitlines_one_line s :
  s <> [] -> no_linebreak s -> splitlines s = [s].
Proof.
  induction s as [|c rest IH]; [congruence|].
  intros _ Hs. inversion Hs as [|? ? Hc Hrest]; subst.
  simpl. rewrite Hc.
  destruct rest as [|d rest']; [reflexivity|].
  rewrite IH; [reflexivity | discriminate | exact Hrest].
Qed.

Lemma join_spaced sep parts :
  parts <> [] ->
  join sep parts ++ sep = List.concat (List.map (fun p => p ++ sep) parts).
Proof.
  induction parts as [|p ps IH]; [congruence|]. intros _.
  destruct ps as [|q qs]; [simpl; rewrite app_nil_r; reflexivity|].
  change (join sep (p :: q :: qs)) with (p ++ sep ++ join sep (q :: qs)).
  cbn [List.map List.concat] in *.
  rewrite <- (app_assoc p), <- (app_assoc sep).
  rewrite IH by discriminate. rewrite <- !app_assoc. reflexivity.
Qed.

Lemma join_starts sep p ps : exists tail, join sep (p :: ps) = p ++ tail.
Proof.
  destruct ps as [|q qs]; [exists []; simpl; rewrite app_nil_r; reflexivity|].
  eexists. reflexivity.
Qed.

Lemma join_ends sep parts :
  parts <> [] -> exists front, join sep parts = front ++ last parts [].
Proof.
  induction parts as [|p ps IH]; [congruence|]. intros _.
  destruct ps as [|q qs]; [exists []; reflexivity|].
  destruct IH as [front E]; [discriminate|].
  exists (p ++ sep ++ front).
  change (join sep (p :: q :: qs)) with (p ++ sep ++ join sep (q :: qs)).
  rewrite E, <- !app_assoc. reflexivity.
Qed.

(** The lines of a text that has line ends other than a carriage return
    right before a line feed. *)
Lemma splitlines_at_line_end a c b :
  no_linebreak a ->
  is_linebreak c = true ->
  N.eqb c 13 && match b with d :: _ => N.eqb d 10 | [] => false end = false ->
  splitlines (a ++ c :: b) = a :: splitlines b.
Proof.
  intros Ha Hc Hcrlf. induction Ha as [|x a Hx Ha IH]; simpl.
  - rewrite Hc. destruct b as [|d b']; [reflexivity|]. rewrite Hcrlf. reflexivity.
  - rewrite Hx. simpl in IH. rewrite IH. reflexivity.
Qed.

(** A carriage return and the line feed after it end one line, not two. *)
Lemma splitlines_at_crlf a b :
  no_linebreak a -> splitlines (a ++ 13 :: 10 :: b) = a :: splitlines b.
Proof.
  intros Ha. induction Ha as [|x a Hx Ha IH]; simpl.
  - reflexivity.
  - rewrite Hx. simpl in IH. rewrite IH. reflexivity.
Qed.

Lemma strip_fixed f s :
  match s with [] => True | c :: _ => f c = false end ->
  match rev s with [] => True | c :: _ => f c = false end ->
  strip_with f s = s.
Proof.
  intros Hfirst Hlast. unfold strip_with.
  rewrite (dropwhile_fixed f s Hfirst), (dropwhile_fixed f (rev s) Hlast).
  apply rev_involutive.
Qed.

Lemma last_in {A} (l : list A) d : l <> [] -> In (last l d) l.
Proof.
  induction l as [|x l IH]; [congruence|]. intros _.
  destruct l as [|y l']; [left; reflexivity|].
  right. apply IH. discriminate.
Qed.

(** Joined lines that begin and end with a line that is not blank need no
    further trimming. *)
Lemma strip_join_of_stripped lines :
  hd [] (List.map strip lines) <> [] ->
  last (List.map strip lines) [] <> [] ->
  strip (join (py " ") (List.map strip lines)) = join (py " ") (List.map strip lines).
Proof.
  intros Hfirst Hlast.
  destruct lines as [|l ls]; [reflexivity|].
  cbn [List.map] in *. cbn [hd] in Hfirst.
  destruct (join_starts (py " ") (strip l) (List.map strip ls)) as [tail Etail].
  destruct (join_ends (py " ") (strip l :: List.map strip ls)) as [front Efront];
    [discriminate|].
  assert (Hin : In (last (strip l :: List.map strip ls) []) (List.map strip (l :: ls))).
  { apply last_in. discriminate. }
  apply in_map_iff in Hin. destruct Hin as (l' & El' & _).
  unfold strip at 1. apply strip_fixed.
  - rewrite Etail.
    pose proof (proj1 (strip_with_ends is_space l)) as H. fold (strip l) in H.
    destruct (strip l) as [|c t]; [congruence | exact H].
  - rewrite Efront, rev_app_distr.
    pose proof (proj2 (strip_with_ends is_space l')) as H. fold (strip l') in H.
    rewrite El' in H.
    destruct (last (strip l :: List.map strip ls) []) as [|c t] eqn:E; [congruence|].
    destruct (rev (c :: t)) as [|d u] eqn:Er.
    + apply (f_equal (@List.length N)) in Er. rewrite length_rev in Er. discriminate.
    + exact H.
Qed.

(** C7, as the code has it.  Whatever the prompt, the codex command is the
    executable followed by one prompt argument.  That argument holds no
    line-break character (no line feed, no carriage return, nor any other
    character at which Python ends a line).  It is the lines of the prompt,
    each trimmed and joined to the next by one space, and this joined text
    trimmed once more: without the white space at its two ends.  It is the
    joined text itself when the first and the last line are not blank.  The
    joined text is pinned by the lines, each trimmed and followed by a
    space; the lines by where they end. *)
Theorem codex_prompt_argument_is_trimmed_join :
  forall (interactive : bool) (output_format cli prompt : pystr),
    let lines := List.map strip (splitlines prompt) in
    let joined := join (py " ") lines in
    (exists flat : pystr,
        _build_cmd_codex interactive output_format cli prompt = [cli; flat]
        /\ no_linebreak flat
        /\ ~ In 10 flat /\ ~ In 13 flat
        /\ flat = strip joined
        /\ (exists pre post,
               joined = pre ++ flat ++ post
               /\ Forall (fun c => is_space c = true) pre
               /\ Forall (fun c => is_space c = true) post)
        /\ match flat with [] => True | c :: _ => is_space c = false end
        /\ match rev flat with [] => True | c :: _ => is_space c = false end
        /\ (hd [] lines <> [] -> last lines [] <> [] -> flat = joined))
    /\ (lines <> [] -> joined ++ py " " = spaced_lines prompt)
    /\ (lines = [] -> joined = [] /\ prompt = [])
    /\ (forall a c b,
           no_linebreak a ->
           is_linebreak c = true ->
           N.eqb c 13 && match b with d :: _ => N.eqb d 10 | [] => false end = false ->
           splitlines (a ++ c :: b) = a :: splitlines b)
    /\ (forall a b, no_linebreak a -> splitlines (a ++ 13 :: 10 :: b) = a :: splitlines b)
    /\ (forall a, a <> [] -> no_linebreak a -> splitlines a = [a])
    /\ _build_cmd_codex interactive output_format (py "codex")
         (py " one " ++ [13; 10; 9] ++ py "two" ++ [10; 10] ++ py "three  " ++ [13])
       = [py "codex"; py "one two  three"].
Proof.
  intros interactive output_format cli prompt lines joined.
  split.
  { exists (flatten prompt).
    pose proof (flatten_no_linebreak prompt) as Hflat.
    split; [destruct interactive; reflexivity|].
    split; [exact Hflat|].
    split; [apply no_linebreak_not_In; [exact Hflat | reflexivity]|].
    split; [apply no_linebreak_not_In; [exact Hflat | reflexivity]|].
    split; [reflexivity|].
    split; [apply (strip_with_split is_space joined)|].
    split; [apply (strip_with_ends is_space joined)|].
    split; [apply (strip_with_ends is_space joined)|].
    intros Hfirst Hlast. apply (strip_join_of_stripped _ Hfirst Hlast). }
  split.
  { intros Hlines. unfold joined, spaced_lines.
    rewrite (join_spaced (py " ") lines Hlines). unfold lines.
    rewrite map_map. reflexivity. }
  split.
  { intros Hlines. unfold joined. rewrite Hlines. split; [reflexivity|].
    unfold lines in Hlines. apply map_eq_nil in Hlines.
    destruct prompt as [|c rest]; [reflexivity|]. simpl in Hlines.
    destruct (is_linebreak c); [discriminate|].
    destruct (splitlines rest); discriminate. }
  split; [apply splitlines_at_line_end|].
  split; [apply splitlines_at_crlf|].
  split; [apply splitlines_one_line|].
  destruct interactive; reflexivity.
Qed.

Lemma codex_prompt_argument_is_trimmed_join_witness :
  exists flat : pystr,
    _build_cmd_codex false (py "text") (py "codex") (py "one " ++ [10] ++ py " two")
    = [py "codex"; flat]
    /\ flat = join (py " ") (List.map strip (splitlines (py "one " ++ [10] ++ py " two")))
    /\ flat = py "one two".
Proof.
  destruct (codex_prompt_argument_is_trimmed_join false (py "text") (py "codex")
              (py "one " ++ [10] ++ py " two"))
    as ((flat & Hcmd & _ & _ & _ & Hstrip & _ & _ & _ & Hjoin) & _).
  exists flat. split; [exact Hcmd|]. split.
  - apply Hjoin; vm_compute; discriminate.
  - rewrite Hstrip. reflexivity.
Defined.

(** C7 as the claim words it fails where the first or the last line is
    blank: for a prompt that ends with an empty line the joined lines end
    with a space, and the argument does not. *)
Lemma codex_prompt_argument_counterexample :
  let prompt := py "fix the bug" ++ [10; 10] in
  _build_cmd_codex false (py "text") (py "codex") prompt
  = [py "codex"; py "fix the bug"]
  /\ List.map strip (splitlines prompt) = [py "fix the bug"; []]
  /\ join (py " ") (List.map strip (splitlines prompt)) = py "fix the bug "
  /\ nth 1 (_build_cmd_codex false (py "text") (py "codex") prompt) []
     <> join (py " ") (List.map strip (splitlines prompt)).
Proof.
  cbv zeta. repeat split; try reflexivity.
  vm_compute. discriminate.
Qed.

(** C8. The headless claude command is, in this order: the executable, [-p],
    the prompt as it is, [--allowedTools] and the list of tools,
    [--output-format] and the requested format; [build_cmd] hands exactly
    this vector to the launcher for the driver claude. *)
Theorem claude_headless_command :
  forall (output_format cli prompt : pystr) (cwd : Path),
    _build_cmd_claude false output_format cli prompt
    = [cli; py "-p"; prompt; py "--allowedTools"; ALLOWED_TOOLS;
       py "--output-format"; output_format]
    /\ build_cmd (py "claude") false output_format cli prompt cwd
       = (Done [cli; py "-p"; prompt; py "--allowedTools"; ALLOWED_TOOLS;
                py "--output-format"; output_format], cwd, []).
Proof.
  intros. split; reflexivity.
Qed.

(** C9. For every output format, executable and prompt, the codex builder
    gives the same command in interactive and in headless mode: the
    executable and the flattened prompt as one positional argument. *)
Theorem codex_command_same_in_both_modes :
  forall (output_format cli prompt : pystr),
    _build_cmd_codex true output_format cli prompt
    = _build_cmd_codex false output_format cli prompt
    /\ _build_cmd_codex false output_format cli prompt = [cli; flatten prompt].
Proof.
  intros. split; reflexivity.
Qed.

(** ** The prompt *)








(** ** Output handling *)

Lemma stream_json_output_line os line rest :
  stream_json_output os (line :: rest)
  = if nonblank (strip line) then
      match json_loads os (strip line) with
      | Loaded message => Yield message :: stream_json_output os rest
      | JSONDecodeError e =>
          Warn (py "Warning: Failed to parse JSON line: " ++ e)
               (py "Line content: " ++ strip line)
          :: stream_json_output os rest
      | LoadRaised e => [Abort e]
      end
    else stream_json_output os rest.
Proof. cbn [stream_json_output]. destruct (strip line); reflexivity. Qed.






(** C6, as the code has it.  When [json.loads] returns a document,
    [handle_json_output] returns it.  When it raises JSONDecodeError,
    [handle_json_output] writes one line on standard error and returns an
    object whose field [error] is a fixed message and whose field [raw] is
    the text as it was; in json mode, with a child that ended with code 0,
    that object is printed and [run_model] returns.  Any other exception of
    [json.loads] (RecursionError for lists nested too deep, ValueError for
    an integer too long) is not caught: [handle_json_output] raises it and
    the json mode prints nothing. *)
Theorem handle_json_output_wraps_decode_errors :
  forall (os : OS) (output : pystr) (cwd : Path),
    (forall data,
        json_loads os output = Loaded data ->
        handle_json_output os output cwd = (Done data, cwd, []))
    /\ (forall e,
           json_loads os output = JSONDecodeError e ->
           handle_json_output os output cwd
           = (Done (parse_failure output), cwd,
              [Stderr (py "Error parsing JSON output: " ++ e)])
           /\ dict_get (py "error") [(py "error", JStr (py "Failed to parse JSON output"));
                                     (py "raw", JStr output)]
              = Some (JStr (py "Failed to parse JSON output"))
           /\ dict_get (py "raw") [(py "error", JStr (py "Failed to parse JSON output"));
                                   (py "raw", JStr output)]
              = Some (JStr output)
           /\ forall cmd fallback out err,
                spawn os cwd cmd Capture = Exited 0 out err ->
                List.concat out = output ->
                run_headless os cmd (py "json") fallback cwd
                = (Done tt, cwd,
                   [Spawn cwd cmd Capture;
                    Stderr (py "Error parsing JSON output: " ++ e);
                    Stdout (json_dumps_indent os (parse_failure output))]))
    /\ (forall e,
           json_loads os output = LoadRaised e ->
           handle_json_output os output cwd = (Raised (exn_of_load_error e), cwd, [])
           /\ forall cmd fallback out err,
                spawn os cwd cmd Capture = Exited 0 out err ->
                List.concat out = output ->
                run_headless os cmd (py "json") fallback cwd
                = (Raised (exn_of_load_error e), cwd, [Spawn cwd cmd Capture])).
Proof.
  intros os output cwd.
  unfold handle_json_output.
  split; [|split].
  - intros data H. rewrite H. reflexivity.
  - intros e H. rewrite H.
    split; [reflexivity|]. split; [reflexivity|]. split; [reflexivity|].
    intros cmd fallback out err Hspawn Hout.
    unfold run_headless. simpl.
    unfold try_except, bind, subprocess_run_capture, launch, bind, getcwd, emit, ret.
    rewrite Hspawn. simpl.
    unfold handle_json_output, bind, eprint, print, emit, ret.
    rewrite Hout, H. reflexivity.
  - intros e H. rewrite H. split; [reflexivity|].
    intros cmd fallback out err Hspawn Hout.
    unfold run_headless. simpl.
    unfold try_except, bind, subprocess_run_capture, launch, bind, getcwd, emit, ret.
    rewrite Hspawn. simpl.
    unfold handle_json_output, bind, raise.
    rewrite Hout, H. reflexivity.
Qed.

Lemma handle_json_output_wraps_decode_errors_witness :
  let os := Sample.world Sample.on_path (Exited 0 [py "oops"; [10]] []) in
  run_headless os [py "claude"] (py "json") (ret tt) (py "/repo")
  = (Done tt, py "/repo",
     [Spawn (py "/repo") [py "claude"] Capture;
      Stderr (py "Error parsing JSON output: "
              ++ py "Expecting value: line 1 column 1 (char 0)");
      Stdout (json_dumps_indent os (parse_failure (py "oops" ++ [10])))]).
Proof.
  intros os.
  destruct (handle_json_output_wraps_decode_errors os (py "oops" ++ [10]) (py "/repo"))
    as (_ & H & _).
  destruct (H (py "Expecting value: line 1 column 1 (char 0)") eq_refl)
    as (_ & _ & _ & Hrun).
  exact (Hrun [py "claude"] (ret tt) [py "oops"; [10]] [] eq_refl eq_refl).
Defined.

(** C6 as the claim words it fails on a document of a hundred thousand
    lists one in the other: it is JSON, yet [handle_json_output] raises
    RecursionError where the claim has it return, and the json mode ends
    with that exception. *)
Lemma handle_json_output_counterexample :
  let os := Sample.world Sample.on_path (Exited 0 [Sample.deep_document] []) in
  handle_json_output os Sample.deep_document (py "/repo")
  = (Raised RecursionError, py "/repo", [])
  /\ run_headless os [py "claude"] (py "json") (ret tt) (py "/repo")
     = (Raised RecursionError, py "/repo", [Spawn (py "/repo") [py "claude"] Capture]).
Proof.
  cbv zeta. split; vm_compute; reflexivity.
Qed.

(** ** Computations that stay in their directory *)

Section Steady.

Variable os : OS.

Lemma steady_ret {A} (a : A) : steady (ret a).
Proof. intros cwd. split; [reflexivity | constructor]. Qed.

Lemma steady_raise {A} (e : exn) : steady (@raise A e).
Proof. intros cwd. split; [reflexivity | constructor]. Qed.

Lemma steady_sys_exit {A} (arg : exit_arg) : steady (@sys_exit A arg).
Proof. intros cwd. split; [reflexivity | constructor]. Qed.

Lemma steady_getcwd : steady getcwd.
Proof. intros cwd. split; [reflexivity | constructor]. Qed.

Lemma steady_print text : steady (print text).
Proof. intros cwd. split; [reflexivity | repeat constructor]. Qed.

Lemma steady_eprint text : steady (eprint text).
Proof. intros cwd. split; [reflexivity | repeat constructor]. Qed.

Lemma steady_emit_Terminate : steady (emit Terminate).
Proof. intros cwd. split; [reflexivity | repeat constructor]. Qed.

Lemma steady_bind {A B} (m : M A) (k : A -> M B) :
  steady m -> (forall a, steady (k a)) -> steady (bind m k).
Proof.
  intros Hm Hk cwd. unfold bind.
  destruct (Hm cwd) as [Hc Hl].
  destruct (m cwd) as [[r c] l]. unfold cwd_of, log_of in *. simpl in *. subst c.
  destruct r as [a| |]; try (split; [reflexivity | exact Hl]).
  destruct (Hk a cwd) as [Hc2 Hl2].
  destruct (k a cwd) as [[r2 c2] l2]. unfold cwd_of, log_of in *. simpl in *.
  split; [exact Hc2 | apply Forall_app; split; assumption].
Qed.

Lemma steady_try_except {A} (m : M A) (handler : exn -> option (M A)) :
  steady m ->
  (forall e h, handler e = Some h -> steady h) ->
  steady (try_except m handler).
Proof.
  intros Hm Hh cwd. unfold try_except.
  destruct (Hm cwd) as [Hc Hl].
  destruct (m cwd) as [[r c] l]. unfold cwd_of, log_of in *. simpl in *. subst c.
  destruct r as [a| |e]; try (split; [reflexivity | exact Hl]).
  destruct (handler e) as [h|] eqn:E; [|split; [reflexivity | exact Hl]].
  destruct (Hh e h E cwd) as [Hc2 Hl2].
  destruct (h cwd) as [[r2 c2] l2]. unfold cwd_of, log_of in *. simpl in *.
  split; [exact Hc2 | apply Forall_app; split; assumption].
Qed.

Lemma steady_for_each {A} (items : list A) (body : A -> M unit) :
  (forall x, steady (body x)) -> steady (for_each items body).
Proof.
  intros Hbody. induction items as [|x rest IH]; simpl.
  - apply steady_ret.
  - apply steady_bind; [apply Hbody | intros _; exact IH].
Qed.

Lemma steady_launch cmd mode : steady (launch os cmd mode).
Proof. intros cwd. split; [reflexivity | repeat constructor]. Qed.

Create HintDb steady.

#[local] Hint Resolve steady_ret steady_raise steady_sys_exit steady_getcwd steady_print
  steady_eprint steady_emit_Terminate steady_launch : steady.

(** [m ;; k] and [x <- m ;; k] with [m] one of the basic steps. *)
Ltac steady_seq := apply steady_bind; [solve [auto with steady]|].

Ltac steady_basic := solve [repeat (steady_seq; intros ?); auto with steady].

Lemma steady_subprocess_run_check cmd : steady (subprocess_run_check os cmd).
Proof.
  unfold subprocess_run_check. steady_seq.
  intros [| msg | rc out err | out]; [| |destruct (Z.eqb rc 0)|]; steady_basic.
Qed.

Lemma steady_subprocess_run_capture cmd : steady (subprocess_run_capture os cmd).
Proof.
  unfold subprocess_run_capture. steady_seq.
  intros [| msg | rc out err | out]; steady_basic.
Qed.

Lemma steady_powershell_lookup shells cli : steady (powershell_lookup os shells cli).
Proof.
  induction shells as [|pwsh more IH]; simpl; [steady_basic|].
  steady_seq.
  intros [| msg | rc out err | out]; try exact IH; [|steady_basic].
  steady_seq. intros cwd.
  destruct (strip_chars _ _); [exact IH|].
  destruct (path_exists os cwd _); [steady_basic | exact IH].
Qed.

Lemma steady_resolve_cli cli : steady (resolve_cli os cli).
Proof.
  unfold resolve_cli. steady_seq. intros cwd.
  destruct (which os cwd cli); [steady_basic|].
  destruct (platform_win os); [apply steady_powershell_lookup | steady_basic].
Qed.

Lemma steady_run_noop prompt interactive output_format :
  steady (run_noop os prompt interactive output_format).
Proof.
  unfold run_noop. destruct interactive; [steady_basic|].
  destruct (PyStr.eqb output_format (py "stream-json")).
  { apply steady_for_each. intros e. steady_basic. }
  destruct (PyStr.eqb output_format (py "json")); steady_basic.
Qed.

Lemma steady_format_4f v : steady (format_4f os v).
Proof. unfold format_4f. destruct (fmt_4f os v); steady_basic. Qed.

Lemma steady_show_message message : steady (show_message os message).
Proof.
  destruct message; try (apply steady_raise).
  unfold show_message. apply steady_bind; [|intros _; steady_basic].
  destruct (_ && _); [steady_basic|].
  destruct (is_str _ _).
  { destruct (dict_get_default _ _ _); try (apply steady_raise).
    destruct (dict_get_default _ _ _); try (apply steady_raise); steady_basic. }
  destruct (is_str _ _); [|steady_basic].
  steady_seq. intros _. steady_seq. intros _.
  apply steady_bind; [apply steady_format_4f|]. intros cost.
  steady_seq. intros _. steady_seq. intros _. steady_seq. intros _.
  destruct (truthy _); steady_basic.
Qed.

Lemma steady_stream_step item : steady (stream_step os item).
Proof.
  destruct item; simpl; [apply steady_show_message | steady_basic | apply steady_raise].
Qed.

Lemma steady_show_summary json_data : steady (show_summary os json_data).
Proof.
  destruct json_data; try (apply steady_ret).
  unfold show_summary. destruct (is_str _ _); [|steady_basic].
  steady_seq. intros _. steady_seq. intros _.
  apply steady_bind; [apply steady_format_4f|]. intros cost.
  steady_basic.
Qed.

Lemma steady_report_failure rc stderr : steady (report_failure os rc stderr).
Proof. unfold report_failure. steady_basic. Qed.

Lemma steady_handle_json_output output : steady (handle_json_output os output).
Proof.
  unfold handle_json_output. destruct (json_loads os output); steady_basic.
Qed.

Lemma steady_build_cmd driver interactive output_format cli prompt :
  steady (build_cmd driver interactive output_format cli prompt).
Proof.
  unfold build_cmd.
  destruct (PyStr.eqb driver (py "codex")); [steady_basic|].
  destruct (PyStr.eqb driver (py "claude")); steady_basic.
Qed.

Lemma steady_stream out :
  steady (for_each (stream_json_output os out) (stream_step os)).
Proof. apply steady_for_each, steady_stream_step. Qed.

Lemma steady_run_headless cmd output_format fallback :
  steady fallback -> steady (run_headless os cmd output_format fallback).
Proof.
  intros Hfb. unfold run_headless.
  destruct (PyStr.eqb output_format (py "stream-json")).
  { steady_seq. intros [| msg | rc out err | out]; try steady_basic.
    - apply steady_bind; [apply steady_stream|]. intros _.
      destruct (Z.eqb rc 0); [steady_basic | apply steady_report_failure].
    - apply steady_bind; [apply steady_stream|]. intros _. steady_basic. }
  destruct (PyStr.eqb output_format (py "json")); [|apply steady_subprocess_run_check].
  apply steady_bind.
  - apply steady_try_except.
    + apply steady_bind; [apply steady_subprocess_run_capture | intros r; steady_basic].
    + intros e h H. destruct e; try discriminate. injection H as <-.
      steady_seq. intros _.
      apply steady_bind; [exact Hfb | intros _; steady_basic].
  - intros [[[rc stdout] stderr]|]; [|steady_basic].
    destruct (Z.eqb rc 0); [|apply steady_report_failure].
    apply steady_bind; [apply steady_handle_json_output|]. intros json_data.
    steady_seq. intros _. apply steady_show_summary.
Qed.

Lemma steady_run_model_body self :
  (forall prompt driver cli interactive output_format,
      steady (self prompt driver cli interactive output_format)) ->
  forall prompt driver cli interactive output_format,
    steady (run_model_body os self prompt driver cli interactive output_format).
Proof.
  intros IH prompt driver cli interactive output_format. unfold run_model_body.
  destruct (PyStr.eqb (lower os driver) (py "noop")); [apply steady_run_noop|].
  cbv zeta.
  apply steady_bind; [apply steady_resolve_cli|].
  assert (Hrun : forall path,
    steady (cmd <- build_cmd (lower os driver) interactive output_format path prompt ;;
            if interactive then
              try_except (subprocess_run_check os cmd)
                (fun e =>
                   match e with
                   | FileNotFoundError =>
                       Some (eprint (py "Interactive CLI '" ++ hd [] cmd
                                     ++ py "' not found. Falling back to local 'noop' driver.") ;;
                             self prompt (py "noop") None interactive output_format)
                   | OSError msg =>
                       Some (eprint (py "Interactive launch failed: " ++ msg
                                     ++ py ". Falling back to headless text run.") ;;
                             self prompt (lower os driver) (Some path) false (py "text"))
                   | _ => None
                   end)
            else
              run_headless os cmd output_format
                (self prompt (py "noop") None interactive output_format))).
  { intros path. apply steady_bind; [apply steady_build_cmd|]. intros cmd.
    destruct interactive; [|apply steady_run_headless, IH].
    apply steady_try_except; [apply steady_subprocess_run_check|].
    intros e h H.
    destruct e; try discriminate; injection H as <-;
      (steady_seq; intros _; apply IH). }
  intros [path|]; [apply Hrun|].
  destruct (_ || _); [|apply Hrun].
  steady_seq. intros _. apply IH.
Qed.

Lemma steady_run_model_fuel fuel :
  forall prompt driver cli interactive output_format,
    steady (run_model_fuel os fuel prompt driver cli interactive output_format).
Proof.
  induction fuel as [|fuel IH]; simpl.
  - intros. apply steady_raise.
  - apply steady_run_model_body, IH.
Qed.

End Steady.

(** ** Enough fuel *)

Lemma bind_ext {A B} (m : M A) (k1 k2 : A -> M B) cwd :
  (forall a c, k1 a c = k2 a c) -> bind m k1 cwd = bind m k2 cwd.
Proof.
  intros H. unfold bind. destruct (m cwd) as [[[a| |] c] l]; try reflexivity.
  rewrite H. reflexivity.
Qed.

Lemma try_except_ext {A} (m : M A) (h1 h2 : exn -> option (M A)) cwd :
  (forall e, match h1 e, h2 e with
             | Some a, Some b => forall c, a c = b c
             | None, None => True
             | _, _ => False
             end) ->
  try_except m h1 cwd = try_except m h2 cwd.
Proof.
  intros H. unfold try_except. destruct (m cwd) as [[[a| |e] c] l]; try reflexivity.
  specialize (H e). destruct (h1 e), (h2 e); try contradiction; [|reflexivity].
  rewrite H. reflexivity.
Qed.

Lemma run_headless_ext os cmd output_format fb1 fb2 cwd :
  (forall c, fb1 c = fb2 c) ->
  run_headless os cmd output_format fb1 cwd = run_headless os cmd output_format fb2 cwd.
Proof.
  intros H. unfold run_headless.
  destruct (PyStr.eqb output_format (py "stream-json")); [reflexivity|].
  destruct (PyStr.eqb output_format (py "json")); [|reflexivity].
  unfold bind at 1 3.
  rewrite (try_except_ext _ _
             (fun e => match e with
                       | FileNotFoundError =>
                           Some (eprint (py "Headless CLI '" ++ hd [] cmd
                                         ++ py "' not found. Falling back to local 'noop' driver.") ;;
                                 fb2 ;; ret None)
                       | _ => None
                       end)); [reflexivity|].
  intros e. destruct e; try exact I.
  intros c. apply bind_ext. intros _ c'. unfold bind. rewrite H. reflexivity.
Qed.

Lemma run_model_body_ext os self1 self2 prompt driver cli interactive output_format cwd :
  (forall c, self1 prompt (py "noop") None interactive output_format c
             = self2 prompt (py "noop") None interactive output_format c) ->
  (interactive = true ->
   forall path c, self1 prompt (lower os driver) (Some path) false (py "text") c
                  = self2 prompt (lower os driver) (Some path) false (py "text") c) ->
  run_model_body os self1 prompt driver cli interactive output_format cwd
  = run_model_body os self2 prompt driver cli interactive output_format cwd.
Proof.
  intros Hnoop Htext. unfold run_model_body.
  destruct (PyStr.eqb (lower os driver) (py "noop")); [reflexivity|].
  cbv zeta. apply bind_ext.
  assert (Hrun : forall path c,
    (cmd <- build_cmd (lower os driver) interactive output_format path prompt ;;
     if interactive then
       try_except (subprocess_run_check os cmd)
         (fun e =>
            match e with
            | FileNotFoundError =>
                Some (eprint (py "Interactive CLI '" ++ hd [] cmd
                              ++ py "' not found. Falling back to local 'noop' driver.") ;;
                      self1 prompt (py "noop") None interactive output_format)
            | OSError msg =>
                Some (eprint (py "Interactive launch failed: " ++ msg
                              ++ py ". Falling back to headless text run.") ;;
                      self1 prompt (lower os driver) (Some path) false (py "text"))
            | _ => None
            end)
     else
       run_headless os cmd output_format
         (self1 prompt (py "noop") None interactive output_format)) c
    = (cmd <- build_cmd (lower os driver) interactive output_format path prompt ;;
     if interactive then
       try_except (subprocess_run_check os cmd)
         (fun e =>
            match e with
            | FileNotFoundError =>
                Some (eprint (py "Interactive CLI '" ++ hd [] cmd
                              ++ py "' not found. Falling back to local 'noop' driver.") ;;
                      self2 prompt (py "noop") None interactive output_format)
            | OSError msg =>
                Some (eprint (py "Interactive launch failed: " ++ msg
                              ++ py ". Falling back to headless text run.") ;;
                      self2 prompt (lower os driver) (Some path) false (py "text"))
            | _ => None
            end)
     else
       run_headless os cmd output_format
         (self2 prompt (py "noop") None interactive output_format)) c).
  { intros path c. apply bind_ext. intros cmd c'.
    destruct interactive; [|apply run_headless_ext, Hnoop].
    apply try_except_ext. intros e. destruct e; try exact I.
    - intros c2. apply bind_ext. intros _ c3. apply Hnoop.
    - intros c2. apply bind_ext. intros _ c3. apply Htext. reflexivity. }
  intros [path|] c; [apply Hrun|].
  destruct (_ || _); [|apply Hrun].
  apply bind_ext. intros _ c'. apply Hnoop.
Qed.

Lemma run_model_fuel_noop os n prompt cli interactive output_format :
  run_model_fuel os (S n) prompt (py "noop") cli interactive output_format
  = run_noop os prompt interactive output_format.
Proof. reflexivity. Qed.

Lemma run_model_fuel_headless os n prompt driver cli output_format cwd :
  run_model_fuel os (S (S n)) prompt driver cli false output_format cwd
  = run_model_fuel os 2 prompt driver cli false output_format cwd.
Proof.
  change (run_model_body os (run_model_fuel os (S n)) prompt driver cli false output_format cwd
          = run_model_body os (run_model_fuel os 1) prompt driver cli false output_format cwd).
  apply run_model_body_ext; [|discriminate].
  intros c. rewrite !run_model_fuel_noop. reflexivity.
Qed.

Lemma run_model_fuel_enough os n prompt driver cli interactive output_format cwd :
  run_model_fuel os (3 + n) prompt driver cli interactive output_format cwd
  = run_model os prompt driver cli interactive output_format cwd.
Proof.
  unfold run_model.
  change (run_model_body os (run_model_fuel os (S (S n))) prompt driver cli interactive output_format cwd
          = run_model_body os (run_model_fuel os 2) prompt driver cli interactive output_format cwd).
  apply run_model_body_ext.
  - intros c. rewrite !run_model_fuel_noop. reflexivity.
  - intros _ path c. apply run_model_fuel_headless.
Qed.

(** ** Runs of [run_model] *)

Lemma run_noop_done os prompt interactive output_format cwd :
  exists canned,
    run_noop os prompt interactive output_format cwd = (Done tt, cwd, canned)
    /\ Forall (fun e => exists text, e = Stdout text) canned.
Proof.
  unfold run_noop. destruct interactive.
  - eexists. split; [reflexivity|]. repeat constructor; eexists; reflexivity.
  - destruct (PyStr.eqb output_format (py "stream-json")).
    { eexists. split; [reflexivity|]. repeat constructor; eexists; reflexivity. }
    destruct (PyStr.eqb output_format (py "json")).
    { eexists. split; [reflexivity|]. repeat constructor; eexists; reflexivity. }
    eexists. split; [reflexivity|]. repeat constructor; eexists; reflexivity.
Qed.

Lemma bind_Done {A B} (m : M A) (k : A -> M B) cwd a c l :
  m cwd = (Done a, c, l) ->
  bind m k cwd = let '(r, c2, l2) := k a c in (r, c2, l ++ l2).
Proof. intros E. unfold bind. rewrite E. reflexivity. Qed.

Lemma bind_Raised {A B} (m : M A) (k : A -> M B) cwd e c l :
  m cwd = (Raised e, c, l) -> bind m k cwd = (Raised e, c, l).
Proof. intros E. unfold bind. rewrite E. reflexivity. Qed.

Lemma resolve_cli_run os name cwd :
  exists r l, resolve_cli os name cwd = (r, cwd, l).
Proof.
  destruct (steady_resolve_cli os name cwd) as [Hc _].
  destruct (resolve_cli os name cwd) as [[r c] l].
  unfold cwd_of in Hc. simpl in Hc. subst c. exists r, l. reflexivity.
Qed.

Lemma real_driver_tests os driver :
  real_driver driver ->
  lower os driver = driver
  /\ PyStr.eqb driver (py "noop") = false
  /\ PyStr.eqb driver (py "codex") || PyStr.eqb driver (py "claude") = true.
Proof. intros [-> | ->]; repeat split. Qed.

Lemma run_model_body_unresolved os self prompt driver cli interactive output_format cwd :
  real_driver driver ->
  result_of (resolve_cli os (cli_name driver cli) cwd) = Done None ->
  run_model_body os self prompt driver cli interactive output_format cwd
  = let '(r, c, l) := self prompt (py "noop") None interactive output_format cwd in
    (r, c,
     log_of (resolve_cli os (cli_name driver cli) cwd)
     ++ Stderr (py "CLI executable not found: '" ++ cli_name driver cli
                ++ py "'. Falling back to local 'noop' driver.") :: l).
Proof.
  intros Hd Hres.
  destruct (real_driver_tests os driver Hd) as (Hlow & Hnoop & Hreal).
  destruct (resolve_cli_run os (cli_name driver cli) cwd) as (r & l & E).
  rewrite E in Hres |- *. unfold result_of, log_of in *. simpl in Hres |- *. subst r.
  unfold run_model_body. rewrite Hlow, Hnoop. cbv zeta.
  rewrite (bind_Done _ _ _ _ _ _ E). cbv beta iota. rewrite Hreal.
  unfold bind, eprint, emit.
  destruct (self prompt (py "noop") None interactive output_format cwd) as [[r c] l'].
  reflexivity.
Qed.

Lemma build_cmd_real driver interactive output_format cli prompt cwd :
  real_driver driver ->
  build_cmd driver interactive output_format cli prompt cwd
  = (Done (command_for driver interactive output_format cli prompt), cwd, []).
Proof. intros [-> | ->]; reflexivity. Qed.

Lemma command_for_executable driver interactive output_format cli prompt :
  hd [] (command_for driver interactive output_format cli prompt) = cli.
Proof.
  unfold command_for, _build_cmd_codex, _build_cmd_claude.
  destruct (PyStr.eqb driver (py "codex")), interactive; reflexivity.
Qed.

Lemma subprocess_run_check_log os cmd cwd :
  exists r, subprocess_run_check os cmd cwd = (r, cwd, [Spawn cwd cmd Inherit]).
Proof.
  unfold subprocess_run_check, launch, bind, getcwd, emit, ret. simpl.
  destruct (spawn os cwd cmd Inherit) as [| msg | rc out err | out];
    try (eexists; reflexivity).
  destruct (Z.eqb rc 0); eexists; reflexivity.
Qed.

Lemma subprocess_run_capture_log os cmd cwd :
  exists r, subprocess_run_capture os cmd cwd = (r, cwd, [Spawn cwd cmd Capture]).
Proof.
  unfold subprocess_run_capture, launch, bind, getcwd, emit, ret. simpl.
  destruct (spawn os cwd cmd Capture); eexists; reflexivity.
Qed.

Lemma try_except_log {A} (m : M A) handler cwd r c e0 l0 :
  m cwd = (r, c, e0 :: l0) ->
  exists r' c' rest, try_except m handler cwd = (r', c', e0 :: rest).
Proof.
  intros E. unfold try_except. rewrite E.
  destruct r as [a| |e]; try (do 3 eexists; reflexivity).
  destruct (handler e) as [h|]; [|do 3 eexists; reflexivity].
  destruct (h c) as [[r2 c2] l2]. do 3 eexists. reflexivity.
Qed.

Lemma bind_log {A B} (m : M A) (k : A -> M B) cwd r c e0 l0 :
  m cwd = (r, c, e0 :: l0) ->
  exists r' c' rest, bind m k cwd = (r', c', e0 :: rest).
Proof.
  intros E. unfold bind. rewrite E.
  destruct r as [a| |e]; try (do 3 eexists; reflexivity).
  destruct (k a c) as [[r2 c2] l2]. do 3 eexists. reflexivity.
Qed.

Lemma launch_run os cmd mode cwd :
  launch os cmd mode cwd = (Done (spawn os cwd cmd mode), cwd, [Spawn cwd cmd mode]).
Proof. reflexivity. Qed.

Lemma run_headless_log os cmd output_format fallback cwd :
  exists mode r c rest,
    run_headless os cmd output_format fallback cwd = (r, c, Spawn cwd cmd mode :: rest).
Proof.
  unfold run_headless.
  destruct (PyStr.eqb output_format (py "stream-json")).
  { exists Pipe. eapply bind_log. apply launch_run. }
  destruct (PyStr.eqb output_format (py "json")).
  - exists Capture.
    destruct (subprocess_run_capture_log os cmd cwd) as [r E].
    assert (E' : (r <- subprocess_run_capture os cmd ;; ret (Some r)) cwd
                 = (match r with
                    | Done x => Done (Some x)
                    | Exit a => Exit a
                    | Raised e => Raised e
                    end, cwd, [Spawn cwd cmd Capture])).
    { unfold bind. rewrite E. destruct r; reflexivity. }
    destruct (try_except_log _
                (fun e => match e with
                          | FileNotFoundError =>
                              Some (eprint (py "Headless CLI '" ++ hd [] cmd
                                            ++ py "' not found. Falling back to local 'noop' driver.") ;;
                                    fallback ;; ret None)
                          | _ => None
                          end) _ _ _ _ _ E') as (r1 & c1 & rest1 & E1).
    eapply bind_log. exact E1.
  - exists Inherit. destruct (subprocess_run_check_log os cmd cwd) as [r E].
    exists r, cwd, []. exact E.
Qed.

Lemma run_model_body_resolved os self prompt driver cli interactive output_format cwd path :
  real_driver driver ->
  result_of (resolve_cli os (cli_name driver cli) cwd) = Done (Some path) ->
  exists mode r c rest,
    run_model_body os self prompt driver cli interactive output_format cwd
    = (r, c,
       log_of (resolve_cli os (cli_name driver cli) cwd)
       ++ Spawn cwd (command_for driver interactive output_format path prompt) mode
          :: rest).
Proof.
  intros Hd Hres.
  destruct (real_driver_tests os driver Hd) as (Hlow & Hnoop & Hreal).
  destruct (resolve_cli_run os (cli_name driver cli) cwd) as (r & l & E).
  rewrite E in Hres |- *. unfold result_of, log_of in *. simpl in Hres |- *. subst r.
  unfold run_model_body. rewrite Hlow, Hnoop. cbv zeta.
  rewrite (bind_Done _ _ _ _ _ _ E). cbv beta iota.
  rewrite (bind_Done _ _ _ _ _ _ (build_cmd_real driver interactive output_format path prompt cwd Hd)).
  set (cmd := command_for driver interactive output_format path prompt).
  destruct interactive.
  - destruct (subprocess_run_check_log os cmd cwd) as [r E1].
    match goal with
    | |- context [try_except ?m ?h cwd] =>
        destruct (try_except_log m h cwd _ _ _ _ E1) as (r1 & c1 & rest1 & E2)
    end.
    rewrite E2. exists Inherit, r1, c1, rest1. reflexivity.
  - destruct (run_headless_log os cmd output_format
                (self prompt (py "noop") None false output_format) cwd)
      as (mode & r1 & c1 & rest1 & E1).
    rewrite E1. exists mode, r1, c1, rest1. reflexivity.
Qed.

Lemma run_model_body_text_failure os self prompt driver cli cwd path rc out err :
  real_driver driver ->
  result_of (resolve_cli os (cli_name driver cli) cwd) = Done (Some path) ->
  spawn os cwd (command_for driver false (py "text") path prompt) Inherit
  = Exited rc out err ->
  rc <> 0%Z ->
  run_model_body os self prompt driver cli false (py "text") cwd
  = (Raised (CalledProcessError rc), cwd,
     log_of (resolve_cli os (cli_name driver cli) cwd)
     ++ [Spawn cwd (command_for driver false (py "text") path prompt) Inherit]).
Proof.
  intros Hd Hres Hspawn Hrc.
  destruct (real_driver_tests os driver Hd) as (Hlow & Hnoop & Hreal).
  destruct (resolve_cli_run os (cli_name driver cli) cwd) as (r & l & E).
  rewrite E in Hres |- *. unfold result_of, log_of in *. simpl in Hres |- *. subst r.
  unfold run_model_body. rewrite Hlow, Hnoop. cbv zeta.
  rewrite (bind_Done _ _ _ _ _ _ E). cbv beta iota.
  rewrite (bind_Done _ _ _ _ _ _ (build_cmd_real driver false (py "text") path prompt cwd Hd)).
  cbv iota.
  unfold run_headless.
  change (PyStr.eqb (py "text") (py "stream-json")) with false.
  change (PyStr.eqb (py "text") (py "json")) with false. cbv iota.
  unfold subprocess_run_check. rewrite (bind_Done _ _ _ _ _ _ (launch_run os _ Inherit cwd)).
  rewrite Hspawn. cbv iota.
  destruct (Z.eqb_spec rc 0) as [-> | _]; [contradiction|].
  reflexivity.
Qed.

Lemma run_model_unresolved os prompt driver cli interactive output_format cwd :
  real_driver driver ->
  result_of (resolve_cli os (cli_name driver cli) cwd) = Done None ->
  exists canned,
    run_noop os prompt interactive output_format cwd = (Done tt, cwd, canned)
    /\ run_model os prompt driver cli interactive output_format cwd
       = (Done tt, cwd,
          log_of (resolve_cli os (cli_name driver cli) cwd)
          ++ Stderr (py "CLI executable not found: '" ++ cli_name driver cli
                     ++ py "'. Falling back to local 'noop' driver.")
             :: canned)
    /\ Forall (fun e => exists text, e = Stdout text) canned.
Proof.
  intros Hd Hres.
  destruct (run_noop_done os prompt interactive output_format cwd)
    as (canned & Hnoop & Hout).
  exists canned. split; [exact Hnoop|]. split; [|exact Hout].
  unfold run_model. simpl run_model_fuel.
  rewrite (run_model_body_unresolved os _ prompt driver cli interactive
             output_format cwd Hd Hres).
  change (run_model_body os (run_model_body os (fun _ _ _ _ _ => raise RecursionError))
            prompt (py "noop") None interactive output_format cwd)
    with (run_noop os prompt interactive output_format cwd).
  rewrite Hnoop. reflexivity.
Qed.

(** C1. With the driver codex or claude, when the executable is not found
    (neither by the search path nor, on Windows, by PowerShell),
    [run_model] neither raises nor exits: it writes one line on standard
    error and does what the driver noop does with the same interactive flag
    and output format, then returns; nothing is launched after the lookup. *)
Theorem missing_cli_falls_back_to_noop :
  forall (os : OS) (prompt driver : pystr) (cli : option pystr)
         (interactive : bool) (output_format : pystr) (cwd : Path),
    real_driver driver ->
    result_of (resolve_cli os (cli_name driver cli) cwd) = Done None ->
    exists canned,
      run_noop os prompt interactive output_format cwd = (Done tt, cwd, canned)
      /\ run_model os prompt (py "noop") None interactive output_format cwd
         = (Done tt, cwd, canned)
      /\ run_model os prompt driver cli interactive output_format cwd
         = (Done tt, cwd,
            log_of (resolve_cli os (cli_name driver cli) cwd)
            ++ Stderr (py "CLI executable not found: '" ++ cli_name driver cli
                       ++ py "'. Falling back to local 'noop' driver.")
               :: canned)
      /\ Forall (fun e => exists text, e = Stdout text) canned.
Proof.
  intros os prompt driver cli interactive output_format cwd Hd Hres.
  destruct (run_model_unresolved os prompt driver cli interactive output_format cwd
              Hd Hres) as (canned & Hnoop & Hrun & Hout).
  exists canned. repeat split; assumption.
Qed.

Lemma missing_cli_falls_back_to_noop_witness :
  let os := Sample.world Sample.nothing_found NotFound in
  exists canned,
    run_model os (py "do it") (py "claude") None false (py "json") (py "/repo")
    = (Done tt, py "/repo",
       Stderr (py "CLI executable not found: 'claude'. Falling back to local 'noop' driver.")
       :: canned)
    /\ canned = [Stdout (json_dumps os (noop_result))].
Proof.
  intros os.
  destruct (missing_cli_falls_back_to_noop os (py "do it") (py "claude") None false
              (py "json") (py "/repo") (or_intror eq_refl) eq_refl)
    as (canned & Hnoop & _ & Hrun & _).
  exists canned. split; [exact Hrun|].
  injection Hnoop as <-. reflexivity.
Defined.

(** C3, as the code has it.  With a real driver, a name given with [--cli]
    takes the place of the driver's default name and nothing more: it is
    looked up like the default name, by [shutil.which] first.  When the
    lookup finds a path, the command launched has that path as its
    executable; when it finds none, the run falls back to the driver noop
    and nothing is launched under the name given. *)
Theorem cli_override_is_looked_up :
  forall (os : OS) (prompt driver name : pystr)
         (interactive : bool) (output_format : pystr) (cwd : Path),
    real_driver driver ->
    cli_name driver (Some name) = name
    /\ (forall path,
           which os cwd name = Some path ->
           resolve_cli os name cwd = (Done (Some path), cwd, []))
    /\ (forall path,
           result_of (resolve_cli os name cwd) = Done (Some path) ->
           hd [] (command_for driver interactive output_format path prompt) = path
           /\ exists mode r c rest,
               run_model os prompt driver (Some name) interactive output_format cwd
               = (r, c,
                  log_of (resolve_cli os name cwd)
                  ++ Spawn cwd (command_for driver interactive output_format path prompt) mode
                     :: rest))
    /\ (result_of (resolve_cli os name cwd) = Done None ->
        exists canned,
          run_noop os prompt interactive output_format cwd = (Done tt, cwd, canned)
          /\ run_model os prompt driver (Some name) interactive output_format cwd
             = (Done tt, cwd,
                log_of (resolve_cli os name cwd)
                ++ Stderr (py "CLI executable not found: '" ++ name
                           ++ py "'. Falling back to local 'noop' driver.")
                   :: canned)).
Proof.
  intros os prompt driver name interactive output_format cwd Hd.
  split; [reflexivity|]. split; [|split].
  - intros path Hwhich. unfold resolve_cli, bind, getcwd. simpl.
    rewrite Hwhich. reflexivity.
  - intros path Hres. split; [apply command_for_executable|].
    apply (run_model_body_resolved os _ prompt driver (Some name) interactive
             output_format cwd path Hd Hres).
  - intros Hres.
    destruct (run_model_unresolved os prompt driver (Some name) interactive
                output_format cwd Hd Hres) as (canned & Hnoop & Hrun & _).
    exists canned. split; [exact Hnoop | exact Hrun].
Qed.

Lemma cli_override_is_looked_up_witness :
  let os := Sample.world Sample.on_path (Exited 0 [] []) in
  exists mode r c rest,
    run_model os (py "do it") (py "codex") (Some (py "my-agent")) false (py "text")
      (py "/repo")
    = (r, c,
       Spawn (py "/repo") [py "/usr/local/bin/my-agent"; py "do it"] mode :: rest).
Proof.
  intros os.
  destruct (cli_override_is_looked_up os (py "do it") (py "codex") (py "my-agent")
              false (py "text") (py "/repo") (or_introl eq_refl))
    as (_ & _ & Hfound & _).
  exact (proj2 (Hfound (py "/usr/local/bin/my-agent") eq_refl)).
Defined.

(** C3 as the claim words it fails: the name given with [--cli] is not the
    executable launched.  Where the name is on the search path the command
    starts with the path found; where it is not, nothing is launched at
    all and the canned answer is printed. *)
Lemma cli_override_verbatim_counterexample :
  launched_executables
    (log_of (run_model (Sample.world Sample.on_path (Exited 0 [] []))
               (py "do it") (py "codex") (Some (py "my-agent")) false (py "text")
               (py "/repo")))
  = [py "/usr/local/bin/my-agent"]
  /\ py "/usr/local/bin/my-agent" <> py "my-agent"
  /\ run_model (Sample.world Sample.nothing_found (Exited 0 [] []))
       (py "do it") (py "codex") (Some (py "my-agent")) false (py "text") (py "/repo")
     = (Done tt, py "/repo",
        [Stderr (py "CLI executable not found: 'my-agent'. Falling back to local 'noop' driver.");
         Stdout (py "PRP TEST OK")]).
Proof.
  split; [vm_compute; reflexivity|].
  split; [discriminate | vm_compute; reflexivity].
Qed.

(** ** The whole script *)

Lemma chdir_run dir cwd : chdir dir cwd = (Done tt, dir, [Chdir dir]).
Proof. reflexivity. Qed.

Lemma build_prompt_read os cwd prp_path body :
  read_text os cwd prp_path = inl body ->
  build_prompt os prp_path cwd
  = (Done (META_HEADER ++ body), cwd, [ReadText cwd prp_path]).
Proof.
  intros Hread. unfold build_prompt, bind, getcwd, emit. rewrite Hread. reflexivity.
Qed.

Lemma build_prompt_fails os cwd prp_path e :
  read_text os cwd prp_path = inr e ->
  build_prompt os prp_path cwd = (Raised e, cwd, [ReadText cwd prp_path]).
Proof.
  intros Hread. unfold build_prompt, bind, getcwd, emit. rewrite Hread. reflexivity.
Qed.

Lemma main_validated os args cwd0 :
  given (arg_prp_path args) || given (arg_prp args) = true ->
  path_exists os cwd0 (selected_prp os args) = true ->
  main os args cwd0
  = (chdir (ROOT os) ;;
     prompt <- build_prompt os (selected_prp os args) ;;
     try_except
       (run_model os prompt (arg_driver args) (arg_cli args)
          (arg_interactive args) (arg_output_format args))
       (fun e =>
          if is_Exception e then
            let err_path := path_join os (ROOT os) (py "erreur.txt") in
            Some (emit (WriteText err_path (format_exc os e)) ;;
                  eprint (py "An unexpected error occurred. See '" ++ err_path
                          ++ py "' for details.") ;;
                  sys_exit (ExitCode 1))
          else None)) cwd0.
Proof.
  intros Hgiven Hexists. unfold main.
  assert (Hsel : negb (given (arg_prp_path args)) && negb (given (arg_prp args)) = false).
  { destruct (given (arg_prp_path args)), (given (arg_prp args));
      try reflexivity; discriminate. }
  rewrite Hsel. cbv zeta.
  unfold bind at 1. unfold getcwd. cbv beta iota.
  rewrite Hexists. change (negb true) with false. cbv iota.
  match goal with
  | |- _ = ?run => destruct run as [[r c] l]
  end.
  reflexivity.
Qed.

Lemma steady_guarded_run os prompt driver cli interactive output_format :
  steady
    (try_except
       (run_model os prompt driver cli interactive output_format)
       (fun e =>
          if is_Exception e then
            let err_path := path_join os (ROOT os) (py "erreur.txt") in
            Some (emit (WriteText err_path (format_exc os e)) ;;
                  eprint (py "An unexpected error occurred. See '" ++ err_path
                          ++ py "' for details.") ;;
                  sys_exit (ExitCode 1))
          else None)).
Proof.
  apply steady_try_except; [apply steady_run_model_fuel|].
  intros e h H. destruct (is_Exception e); [|discriminate]. injection H as <-.
  apply steady_bind; [intros cwd; split; [reflexivity | repeat constructor]|].
  intros _. apply steady_bind; [apply steady_eprint | intros _; apply steady_sys_exit].
Qed.

(** C10. In every run that passes the validation of the arguments (a
    document is selected and exists, seen from the directory the script was
    started in), the first thing [main] does is to change the working
    directory to the root of the repository, three parents up from the
    script file.  The document is read after that, from the root, and every
    child process is launched from the root; the working directory is not
    changed again.  So a relative document path that exists from the
    starting directory but not from the root is not read. *)
Theorem main_enters_root_before_reading :
  forall (os : OS) (args : Args) (cwd0 : Path),
    given (arg_prp_path args) || given (arg_prp args) = true ->
    path_exists os cwd0 (selected_prp os args) = true ->
    ROOT os = path_parent os (path_parent os (path_parent os (script_file os)))
    /\ cwd_of (main os args cwd0) = ROOT os
    /\ (exists rest,
           log_of (main os args cwd0)
           = Chdir (ROOT os) :: ReadText (ROOT os) (selected_prp os args) :: rest
           /\ Forall (stays_in (ROOT os)) rest)
    /\ (forall e,
           read_text os (ROOT os) (selected_prp os args) = inr e ->
           main os args cwd0
           = (Raised e, ROOT os,
              [Chdir (ROOT os); ReadText (ROOT os) (selected_prp os args)])).
Proof.
  intros os args cwd0 Hgiven Hexists.
  rewrite (main_validated os args cwd0 Hgiven Hexists).
  split; [reflexivity|].
  rewrite (bind_Done _ _ _ _ _ _ (chdir_run (ROOT os) cwd0)).
  destruct (read_text os (ROOT os) (selected_prp os args)) as [body | e] eqn:Hread.
  - rewrite (bind_Done _ _ _ _ _ _
               (build_prompt_read os (ROOT os) (selected_prp os args) body Hread)).
    pose proof (steady_guarded_run os (META_HEADER ++ body) (arg_driver args)
                  (arg_cli args) (arg_interactive args) (arg_output_format args)
                  (ROOT os)) as H.
    revert H. destruct (try_except _ _ (ROOT os)) as [[r c] l].
    unfold cwd_of, log_of. cbn [fst snd]. intros [-> Hl].
    split; [reflexivity|]. split; [|discriminate].
    exists l. split; [reflexivity | exact Hl].
  - rewrite (bind_Raised _ _ _ _ _ _
               (build_prompt_fails os (ROOT os) (selected_prp os args) e Hread)).
    unfold cwd_of, log_of. cbn [fst snd app].
    split; [reflexivity|]. split.
    + exists []. split; [reflexivity | constructor].
    + intros e' He'. injection He' as <-. reflexivity.
Qed.

Lemma main_enters_root_before_reading_witness :
  let os := Sample.world Sample.nothing_found NotFound in
  main os Sample.args_notes (py "/work")
  = (Raised FileNotFoundError, py "/repo",
     [Chdir (py "/repo"); ReadText (py "/repo") (py "notes.md")]).
Proof.
  intros os.
  destruct (main_enters_root_before_reading os Sample.args_notes (py "/work")
              eq_refl eq_refl) as (_ & _ & _ & Hread).
  exact (Hread FileNotFoundError eq_refl).
Defined.

(** A code from 0 to 255 is the exit status as it is, on every platform. *)
Lemma exit_status_small os n : (0 <= n < 256)%Z -> exit_status os n = n.
Proof.
  intros H. unfold exit_status. destruct (platform_win os).
  - apply windows_status_small. lia.
  - replace (Z.leb (- 9223372036854775808) n) with true by (symmetry; apply Z.leb_le; lia).
    replace (Z.ltb n 9223372036854775808) with true by (symmetry; apply Z.ltb_lt; lia).
    apply Z.mod_small. exact H.
Qed.


(** In text mode a child that exits with a code other than 0 makes
    [subprocess.run(cmd, check=True)] raise; [main] takes that for an
    unexpected error, has the trace written and exits with 1. *)
Lemma text_mode_failure_is_unexpected os args cwd0 body path rc out err :
  given (arg_prp_path args) || given (arg_prp args) = true ->
  path_exists os cwd0 (selected_prp os args) = true ->
  read_text os (ROOT os) (selected_prp os args) = inl body ->
  real_driver (arg_driver args) ->
  arg_interactive args = false ->
  arg_output_format args = py "text" ->
  result_of (resolve_cli os (cli_name (arg_driver args) (arg_cli args)) (ROOT os))
  = Done (Some path) ->
  spawn os (ROOT os)
    (command_for (arg_driver args) false (py "text") path (META_HEADER ++ body)) Inherit
  = Exited rc out err ->
  rc <> 0%Z ->
  run_script os args cwd0
  = (Status 1,
     Chdir (ROOT os) :: ReadText (ROOT os) (selected_prp os args)
     :: log_of (resolve_cli os (cli_name (arg_driver args) (arg_cli args)) (ROOT os))
     ++ [Spawn (ROOT os)
           (command_for (arg_driver args) false (py "text") path (META_HEADER ++ body))
           Inherit;
         WriteText (path_join os (ROOT os) (py "erreur.txt"))
           (format_exc os (CalledProcessError rc));
         Stderr (py "An unexpected error occurred. See '"
                 ++ path_join os (ROOT os) (py "erreur.txt") ++ py "' for details.")]).
Proof.
  intros Hgiven Hexists Hread Hd Hi Hf Hres Hspawn Hrc.
  unfold run_script.
  rewrite (main_validated os args cwd0 Hgiven Hexists).
  rewrite (bind_Done _ _ _ _ _ _ (chdir_run (ROOT os) cwd0)).
  rewrite (bind_Done _ _ _ _ _ _
             (build_prompt_read os (ROOT os) (selected_prp os args) body Hread)).
  rewrite Hi, Hf. unfold try_except, run_model. simpl run_model_fuel.
  rewrite (run_model_body_text_failure os _ (META_HEADER ++ body) (arg_driver args)
             (arg_cli args) (ROOT os) path rc out err Hd Hres Hspawn Hrc).
  cbn [is_Exception]. cbv beta iota zeta.
  unfold bind, emit, eprint, emit, sys_exit. cbv beta iota.
  rewrite (exit_status_small os 1) by lia.
  rewrite <- app_assoc. reflexivity.
Qed.


(** C2, at a child that exits with code 2 in text mode: the script exits
    with 1, not 2, and the trace file is written. *)
Theorem text_mode_exit_code_is_not_surfaced :
  let os := Sample.world Sample.on_path (Exited 2 [] []) in
  let run := run_script os (Sample.args (py "codex") None false (py "text"))
               (py "/home/u") in
  fst run = Status 1
  /\ fst run <> Status 2
  /\ In (WriteText (py "/repo/erreur.txt") (format_exc os (CalledProcessError 2)))
        (snd run)
  /\ spawned (snd run)
     = [[py "/usr/local/bin/codex"; flatten (META_HEADER ++ Sample.prp_text)]].
Proof.
  intros os run.
  assert (E : run
              = (Status 1,
                 [Chdir (py "/repo"); ReadText (py "/repo") Sample.prp_file;
                  Spawn (py "/repo")
                    [py "/usr/local/bin/codex"; flatten (META_HEADER ++ Sample.prp_text)]
                    Inherit;
                  WriteText (py "/repo/erreur.txt") (format_exc os (CalledProcessError 2));
                  Stderr (py "An unexpected error occurred. See '/repo/erreur.txt' for details.")])).
  { exact (text_mode_failure_is_unexpected os
             (Sample.args (py "codex") None false (py "text")) (py "/home/u")
             Sample.prp_text (py "/usr/local/bin/codex") 2%Z [] []
             eq_refl eq_refl eq_refl (or_introl eq_refl) eq_refl eq_refl eq_refl eq_refl
             ltac:(discriminate)). }
  rewrite E. cbn [fst snd].
  split; [reflexivity|]. split; [discriminate|].
  split; [right; right; right; left; reflexivity | reflexivity].
Qed.

(** A relative document path is tested from the starting directory and read
    from the root: [--prp-path notes.md] in [/work] passes the test and
    then fails to open. *)
Example relative_path_is_read_from_root :
  run_script (Sample.world Sample.nothing_found NotFound) Sample.args_notes (py "/work")
  = (Status 1,
     [Chdir (py "/repo"); ReadText (py "/repo") (py "notes.md");
      Stderr (py "Traceback (most recent call last): ...")]).
Proof. vm_compute. reflexivity. Qed.

Example noop_stream_json :
  let os := Sample.world Sample.nothing_found NotFound in
  run_script os (Sample.args (py "noop") None false (py "stream-json")) (py "/repo")
  = (Status 0,
     [Chdir (py "/repo"); ReadText (py "/repo") Sample.prp_file]
     ++ List.map (fun e => Stdout (json_dumps os e)) (noop_events)).
Proof. vm_compute. reflexivity. Qed.

Example splitlines_ex :
  splitlines (py "a" ++ [13; 10] ++ py "b" ++ [10; 10] ++ py " c " ++ [13])
  = [py "a"; py "b"; []; py " c "].
Proof. reflexivity. Qed.

Example flatten_ex :
  flatten ([10] ++ py "  one  " ++ [10] ++ py "two" ++ [10; 10]) = py "one two".
Proof. reflexivity. Qed.

(** * Further properties *)

(** ** Flattening and streaming *)

Lemma strip_with_idempotent f s : strip_with f (strip_with f s) = strip_with f s.
Proof.
  destruct (strip_with_ends f s) as [Hfirst Hlast].
  unfold strip_with at 1.
  rewrite (dropwhile_fixed f (strip_with f s) Hfirst).
  rewrite (dropwhile_fixed f (rev (strip_with f s)) Hlast).
  apply rev_involutive.
Qed.

(** X1. Flattening is idempotent: a prompt that was flattened once comes out
    of a second flattening unchanged. *)
Theorem flatten_idempotent :
  forall prompt : pystr, flatten (flatten prompt) = flatten prompt.
Proof.
  intros prompt.
  pose proof (flatten_no_linebreak prompt) as Hflat.
  destruct (flatten prompt) as [|c t] eqn:E; [reflexivity|].
  unfold flatten at 1.
  rewrite (splitlines_one_line (c :: t)); [|discriminate | exact Hflat].
  cbn [List.map join].
  assert (Hs : strip (c :: t) = c :: t).
  { rewrite <- E. unfold flatten, strip. apply strip_with_idempotent. }
  rewrite Hs. exact Hs.
Qed.

(** X2. A prompt of one line, without any line-break character, is only
    trimmed by flattening. *)
Theorem flatten_of_one_line_is_strip :
  forall prompt : pystr, no_linebreak prompt -> flatten prompt = strip prompt.
Proof.
  intros prompt Hp. unfold flatten.
  destruct prompt as [|c t]; [reflexivity|].
  rewrite (splitlines_one_line (c :: t)); [|discriminate | exact Hp].
  cbn [List.map join]. unfold strip. apply strip_with_idempotent.
Qed.

Lemma flatten_of_one_line_is_strip_witness :
  flatten (py "  fix the bug  ") = py "fix the bug".
Proof.
  rewrite (flatten_of_one_line_is_strip (py "  fix the bug  ")).
  - reflexivity.
  - repeat constructor.
Defined.

Lemma stream_json_output_app os a b :
  stream_json_output os (a ++ b)
  = if aborted (stream_json_output os a) then stream_json_output os a
    else stream_json_output os a ++ stream_json_output os b.
Proof.
  induction a as [|line rest IH]; [reflexivity|].
  cbn [app]. rewrite !stream_json_output_line.
  destruct (nonblank (strip line)); [|exact IH].
  destruct (json_loads os (strip line)); [| |reflexivity];
    cbn [aborted existsb orb]; fold (aborted (stream_json_output os rest));
    rewrite IH; destruct (aborted (stream_json_output os rest)); reflexivity.
Qed.

Lemma stream_json_output_blank os lines :
  Forall (fun line => strip line = []) lines -> stream_json_output os lines = [].
Proof.
  intros Hblank. induction Hblank as [|line rest Hline _ IH]; [reflexivity|].
  rewrite stream_json_output_line, Hline. exact IH.
Qed.

Lemma stream_json_output_counts os lines :
  (List.length (stream_json_output os lines)
   = List.length (yielded (stream_json_output os lines))
     + List.length (warned (stream_json_output os lines))
     + (if aborted (stream_json_output os lines) then 1 else 0))%nat
  /\ (List.length (stream_json_output os lines)
      <= List.length (filter nonblank (List.map strip lines)))%nat
  /\ (aborted (stream_json_output os lines) = false ->
      List.length (stream_json_output os lines)
      = List.length (filter nonblank (List.map strip lines)))
  /\ (aborted (stream_json_output os lines) = true ->
      exists before e,
        stream_json_output os lines = before ++ [Abort e]
        /\ aborted before = false).
Proof.
  induction lines as [|line rest IH].
  { repeat split; try reflexivity. discriminate. }
  destruct IH as (H1 & H2 & H3 & H4).
  rewrite stream_json_output_line. cbn [List.map filter].
  destruct (nonblank (strip line)); [|repeat split; assumption].
  destruct (json_loads os (strip line)) as [message | e | e].
  - cbn [yielded warned flat_map aborted existsb orb List.length app].
    fold (yielded (stream_json_output os rest)).
    fold (warned (stream_json_output os rest)).
    fold (aborted (stream_json_output os rest)).
    split; [rewrite H1; reflexivity|]. split; [lia|].
    split; [intros H; rewrite (H3 H); reflexivity|].
    intros H. destruct (H4 H) as (before & e & -> & Hb).
    exists (Yield message :: before), e. split; [reflexivity | exact Hb].
  - cbn [yielded warned flat_map aborted existsb orb List.length app].
    fold (yielded (stream_json_output os rest)).
    fold (warned (stream_json_output os rest)).
    fold (aborted (stream_json_output os rest)).
    split; [rewrite H1; lia|]. split; [lia|].
    split; [intros H; rewrite (H3 H); reflexivity|].
    intros H. destruct (H4 H) as (before & e' & -> & Hb).
    exists (Warn (py "Warning: Failed to parse JSON line: " ++ e)
                 (py "Line content: " ++ strip line) :: before), e'.
    split; [reflexivity | exact Hb].
  - cbn [yielded warned flat_map aborted existsb orb List.length app].
    split; [reflexivity|]. split; [lia|]. split; [discriminate|].
    intros _. exists [], e. split; reflexivity.
Qed.

(** X3. The stream treats each line on its own, up to the first line on
    which [json.loads] raises something else than JSONDecodeError: the items
    of two runs of lines, one after the other, are the items of the first
    followed by those of the second, unless the first run ended the stream,
    and then they are the items of the first; lines of white space give no
    item at all, neither a message nor a warning; every other line that is
    reached gives exactly one item, a message, a warning or the end of the
    stream, and the end of the stream can only be the last item. *)
Theorem stream_json_output_is_linewise :
  forall (os : OS) (first second : list pystr),
    stream_json_output os (first ++ second)
    = (if aborted (stream_json_output os first) then stream_json_output os first
       else stream_json_output os first ++ stream_json_output os second)
    /\ (Forall (fun line => strip line = []) first ->
        stream_json_output os (first ++ second) = stream_json_output os second)
    /\ (List.length (stream_json_output os first)
        = List.length (yielded (stream_json_output os first))
          + List.length (warned (stream_json_output os first))
          + (if aborted (stream_json_output os first) then 1 else 0))%nat
    /\ (List.length (stream_json_output os first)
        <= List.length (filter nonblank (List.map strip first)))%nat
    /\ (aborted (stream_json_output os first) = false ->
        (List.length (yielded (stream_json_output os first))
         + List.length (warned (stream_json_output os first))
         = List.length (filter nonblank (List.map strip first)))%nat)
    /\ (aborted (stream_json_output os first) = true ->
        exists before e,
          stream_json_output os first = before ++ [Abort e]
          /\ aborted before = false).
Proof.
  intros os first second.
  destruct (stream_json_output_counts os first) as (H1 & H2 & H3 & H4).
  split; [apply stream_json_output_app|]. split.
  { intros Hblank. rewrite stream_json_output_app.
    rewrite (stream_json_output_blank os first Hblank). reflexivity. }
  split; [exact H1|]. split; [exact H2|]. split; [|exact H4].
  intros H. rewrite <- (H3 H), H1, H. lia.
Qed.

Lemma stream_json_output_is_linewise_witness :
  let os := Sample.world Sample.on_path NotFound in
  stream_json_output os ([[10]; py "   " ++ [10]] ++ [py "{}" ++ [10]])
  = stream_json_output os [py "{}" ++ [10]].
Proof.
  intros os.
  destruct (stream_json_output_is_linewise os [[10]; py "   " ++ [10]] [py "{}" ++ [10]])
    as (_ & H & _).
  apply H. repeat constructor.
Defined.

(** ** Drivers *)

Lemma lower_idempotent os s : lower os (lower os s) = lower os s.
Proof. apply (lower_stable os). Qed.

Lemma run_model_body_lower os self prompt driver cli interactive output_format :
  run_model_body os self prompt (lower os driver) cli interactive output_format
  = run_model_body os self prompt driver cli interactive output_format.
Proof. unfold run_model_body. rewrite lower_idempotent. reflexivity. Qed.

(** X4. The driver is matched without regard to letter case: [run_model]
    behaves with a driver name as with the same name in lower case. *)
Theorem driver_name_is_case_insensitive :
  forall (os : OS) (prompt driver : pystr) (cli : option pystr)
         (interactive : bool) (output_format : pystr),
    run_model os prompt driver cli interactive output_format
    = run_model os prompt (lower os driver) cli interactive output_format.
Proof.
  intros. unfold run_model. simpl run_model_fuel.
  symmetry. apply run_model_body_lower.
Qed.

Lemma eqb_eq a b : PyStr.eqb a b = true <-> a = b.
Proof.
  revert b. induction a as [|x a IH]; intros [|y b]; simpl; split;
    try congruence; try discriminate.
  - intros H. apply andb_true_iff in H. destruct H as [H1 H2].
    apply N.eqb_eq in H1. apply IH in H2. congruence.
  - intros H. injection H as -> ->. rewrite N.eqb_refl. simpl. apply IH. reflexivity.
Qed.

Lemma eqb_neq a b : a <> b -> PyStr.eqb a b = false.
Proof.
  intros H. destruct (PyStr.eqb a b) eqn:E; [|reflexivity].
  apply eqb_eq in E. contradiction.
Qed.

(** ** What [run_model] causes *)

Section Emits.

Variable os : OS.
Variable P : event -> Prop.
Hypothesis P_stdout : forall text, P (Stdout text).
Hypothesis P_stderr : forall text, P (Stderr text).
Hypothesis P_spawn : forall cwd cmd mode, P (Spawn cwd cmd mode).
Hypothesis P_terminate : P Terminate.

Lemma emits_ret {A} (a : A) : emits P (ret a).
Proof. intros cwd. constructor. Qed.

Lemma emits_raise {A} (e : exn) : emits P (@raise A e).
Proof. intros cwd. constructor. Qed.

Lemma emits_sys_exit {A} (arg : exit_arg) : emits P (@sys_exit A arg).
Proof. intros cwd. constructor. Qed.

Lemma emits_getcwd : emits P getcwd.
Proof. intros cwd. constructor. Qed.

Lemma emits_print text : emits P (print text).
Proof. intros cwd. repeat constructor. apply P_stdout. Qed.

Lemma emits_eprint text : emits P (eprint text).
Proof. intros cwd. repeat constructor. apply P_stderr. Qed.

Lemma emits_Terminate : emits P (emit Terminate).
Proof. intros cwd. repeat constructor. apply P_terminate. Qed.

Lemma emits_launch cmd mode : emits P (launch os cmd mode).
Proof. intros cwd. repeat constructor. apply P_spawn. Qed.

Lemma emits_bind {A B} (m : M A) (k : A -> M B) :
  emits P m -> (forall a, emits P (k a)) -> emits P (bind m k).
Proof.
  intros Hm Hk cwd. unfold bind. specialize (Hm cwd).
  destruct (m cwd) as [[[a| |] c] l]; unfold log_of in *; simpl in *; try exact Hm.
  specialize (Hk a c). destruct (k a c) as [[r2 c2] l2]. unfold log_of in *. simpl in *.
  apply Forall_app; split; assumption.
Qed.

Lemma emits_try_except {A} (m : M A) (handler : exn -> option (M A)) :
  emits P m ->
  (forall e h, handler e = Some h -> emits P h) ->
  emits P (try_except m handler).
Proof.
  intros Hm Hh cwd. unfold try_except. specialize (Hm cwd).
  destruct (m cwd) as [[[a| |e] c] l]; unfold log_of in *; simpl in *; try exact Hm.
  destruct (handler e) as [h|] eqn:E; [|exact Hm].
  specialize (Hh e h E c). destruct (h c) as [[r2 c2] l2]. unfold log_of in *. simpl in *.
  apply Forall_app; split; assumption.
Qed.

Lemma emits_for_each {A} (items : list A) (body : A -> M unit) :
  (forall x, emits P (body x)) -> emits P (for_each items body).
Proof.
  intros Hbody. induction items as [|x rest IH]; simpl.
  - apply emits_ret.
  - apply emits_bind; [apply Hbody | intros _; exact IH].
Qed.

Create HintDb emits.

#[local] Hint Resolve emits_ret emits_raise emits_sys_exit emits_getcwd emits_print
  emits_eprint emits_Terminate emits_launch : emits.

Ltac emits_seq := apply emits_bind; [solve [auto with emits]|].

Ltac emits_basic := solve [repeat (emits_seq; intros ?); auto with emits].

Lemma emits_subprocess_run_check cmd : emits P (subprocess_run_check os cmd).
Proof.
  unfold subprocess_run_check. emits_seq.
  intros [| msg | rc out err | out]; [| |destruct (Z.eqb rc 0)|]; emits_basic.
Qed.

Lemma emits_subprocess_run_capture cmd : emits P (subprocess_run_capture os cmd).
Proof.
  unfold subprocess_run_capture. emits_seq.
  intros [| msg | rc out err | out]; emits_basic.
Qed.

Lemma emits_powershell_lookup shells cli : emits P (powershell_lookup os shells cli).
Proof.
  induction shells as [|pwsh more IH]; simpl; [emits_basic|].
  emits_seq.
  intros [| msg | rc out err | out]; try exact IH; [|emits_basic].
  emits_seq. intros cwd.
  destruct (strip_chars _ _); [exact IH|].
  destruct (path_exists os cwd _); [emits_basic | exact IH].
Qed.

Lemma emits_resolve_cli cli : emits P (resolve_cli os cli).
Proof.
  unfold resolve_cli. emits_seq. intros cwd.
  destruct (which os cwd cli); [emits_basic|].
  destruct (platform_win os); [apply emits_powershell_lookup | emits_basic].
Qed.

Lemma emits_run_noop prompt interactive output_format :
  emits P (run_noop os prompt interactive output_format).
Proof.
  unfold run_noop. destruct interactive; [emits_basic|].
  destruct (PyStr.eqb output_format (py "stream-json")).
  { apply emits_for_each. intros e. emits_basic. }
  destruct (PyStr.eqb output_format (py "json")); emits_basic.
Qed.

Lemma emits_format_4f v : emits P (format_4f os v).
Proof. unfold format_4f. destruct (fmt_4f os v); emits_basic. Qed.

Lemma emits_show_message message : emits P (show_message os message).
Proof.
  destruct message; try (apply emits_raise).
  unfold show_message. apply emits_bind; [|intros _; emits_basic].
  destruct (_ && _); [emits_basic|].
  destruct (is_str _ _).
  { destruct (dict_get_default _ _ _); try (apply emits_raise).
    destruct (dict_get_default _ _ _); try (apply emits_raise); emits_basic. }
  destruct (is_str _ _); [|emits_basic].
  emits_seq. intros _. emits_seq. intros _.
  apply emits_bind; [apply emits_format_4f|]. intros cost.
  emits_seq. intros _. emits_seq. intros _. emits_seq. intros _.
  destruct (truthy _); emits_basic.
Qed.

Lemma emits_stream out :
  emits P (for_each (stream_json_output os out) (stream_step os)).
Proof.
  apply emits_for_each. intros [message | warning content | e]; simpl;
    [apply emits_show_message | emits_basic | apply emits_raise].
Qed.

Lemma emits_show_summary json_data : emits P (show_summary os json_data).
Proof.
  destruct json_data; try (apply emits_ret).
  unfold show_summary. destruct (is_str _ _); [|emits_basic].
  emits_seq. intros _. emits_seq. intros _.
  apply emits_bind; [apply emits_format_4f|]. intros cost.
  emits_basic.
Qed.

Lemma emits_report_failure rc stderr : emits P (report_failure os rc stderr).
Proof. unfold report_failure. emits_basic. Qed.

Lemma emits_handle_json_output output : emits P (handle_json_output os output).
Proof.
  unfold handle_json_output. destruct (json_loads os output); emits_basic.
Qed.

Lemma emits_build_cmd driver interactive output_format cli prompt :
  emits P (build_cmd driver interactive output_format cli prompt).
Proof.
  unfold build_cmd.
  destruct (PyStr.eqb driver (py "codex")); [emits_basic|].
  destruct (PyStr.eqb driver (py "claude")); emits_basic.
Qed.

Lemma emits_run_headless cmd output_format fallback :
  emits P fallback -> emits P (run_headless os cmd output_format fallback).
Proof.
  intros Hfb. unfold run_headless.
  destruct (PyStr.eqb output_format (py "stream-json")).
  { emits_seq. intros [| msg | rc out err | out]; try emits_basic.
    - apply emits_bind; [apply emits_stream|]. intros _.
      destruct (Z.eqb rc 0); [emits_basic | apply emits_report_failure].
    - apply emits_bind; [apply emits_stream|]. intros _. emits_basic. }
  destruct (PyStr.eqb output_format (py "json")); [|apply emits_subprocess_run_check].
  apply emits_bind.
  - apply emits_try_except.
    + apply emits_bind; [apply emits_subprocess_run_capture | intros r; emits_basic].
    + intros e h H. destruct e; try discriminate. injection H as <-.
      emits_seq. intros _.
      apply emits_bind; [exact Hfb | intros _; emits_basic].
  - intros [[[rc stdout] stderr]|]; [|emits_basic].
    destruct (Z.eqb rc 0); [|apply emits_report_failure].
    apply emits_bind; [apply emits_handle_json_output|]. intros json_data.
    emits_seq. intros _. apply emits_show_summary.
Qed.

Lemma emits_run_model_body self :
  (forall prompt driver cli interactive output_format,
      emits P (self prompt driver cli interactive output_format)) ->
  forall prompt driver cli interactive output_format,
    emits P (run_model_body os self prompt driver cli interactive output_format).
Proof.
  intros IH prompt driver cli interactive output_format. unfold run_model_body.
  destruct (PyStr.eqb (lower os driver) (py "noop")); [apply emits_run_noop|].
  cbv zeta.
  apply emits_bind; [apply emits_resolve_cli|].
  assert (Hrun : forall path,
    emits P (cmd <- build_cmd (lower os driver) interactive output_format path prompt ;;
             if interactive then
               try_except (subprocess_run_check os cmd)
                 (fun e =>
                    match e with
                    | FileNotFoundError =>
                        Some (eprint (py "Interactive CLI '" ++ hd [] cmd
                                      ++ py "' not found. Falling back to local 'noop' driver.") ;;
                              self prompt (py "noop") None interactive output_format)
                    | OSError msg =>
                        Some (eprint (py "Interactive launch failed: " ++ msg
                                      ++ py ". Falling back to headless text run.") ;;
                              self prompt (lower os driver) (Some path) false (py "text"))
                    | _ => None
                    end)
             else
               run_headless os cmd output_format
                 (self prompt (py "noop") None interactive output_format))).
  { intros path. apply emits_bind; [apply emits_build_cmd|]. intros cmd.
    destruct interactive; [|apply emits_run_headless, IH].
    apply emits_try_except; [apply emits_subprocess_run_check|].
    intros e h H.
    destruct e; try discriminate; injection H as <-;
      (emits_seq; intros _; apply IH). }
  intros [path|]; [apply Hrun|].
  destruct (_ || _); [|apply Hrun].
  emits_seq. intros _. apply IH.
Qed.

Lemma emits_run_model_fuel fuel :
  forall prompt driver cli interactive output_format,
    emits P (run_model_fuel os fuel prompt driver cli interactive output_format).
Proof.
  induction fuel as [|fuel IH]; simpl.
  - intros. apply emits_raise.
  - apply emits_run_model_body, IH.
Qed.

End Emits.

(** X5. [run_model] only prints, launches children and, on an interrupt,
    terminates the child: it reads and writes no file and leaves the
    working directory as it found it, and every child it launches starts in
    that directory. *)
Theorem run_model_only_prints_and_launches :
  forall (os : OS) (prompt driver : pystr) (cli : option pystr)
         (interactive : bool) (output_format : pystr) (cwd : Path),
    let run := run_model os prompt driver cli interactive output_format cwd in
    cwd_of run = cwd
    /\ Forall plain (log_of run)
    /\ Forall (stays_in cwd) (log_of run).
Proof.
  intros os prompt driver cli interactive output_format cwd run.
  destruct (steady_run_model_fuel os 3 prompt driver cli interactive output_format cwd)
    as [Hc Hl].
  split; [exact Hc|]. split; [|exact Hl].
  apply (emits_run_model_fuel os plain); intros; exact I.
Qed.

(** X6. The calls of [run_model] to itself never nest more than three
    deep (an interactive run, its headless retry, the noop fallback): with
    any larger bound on the depth the run is the same, so the bound is never
    what ends a run. *)
Theorem run_model_recursion_is_bounded :
  forall (os : OS) (extra : nat) (prompt driver : pystr) (cli : option pystr)
         (interactive : bool) (output_format : pystr) (cwd : Path),
    run_model_fuel os (3 + extra) prompt driver cli interactive output_format cwd
    = run_model os prompt driver cli interactive output_format cwd.
Proof. intros. apply run_model_fuel_enough. Qed.

(** ** Argument errors and exit status *)

(** X7. Without a document selection ([--prp-path] and [--prp] both absent
    or empty) the script exits with status 1 after one line on standard
    error; it does not change directory, reads nothing, launches nothing and
    writes no trace file. *)
Theorem main_without_selection_exits :
  forall (os : OS) (args : Args) (cwd0 : Path),
    given (arg_prp_path args) = false ->
    given (arg_prp args) = false ->
    main os args cwd0
    = (Exit (ExitMsg (py "Must supply --prp or --prp-path")), cwd0, [])
    /\ run_script os args cwd0
       = (Status 1, [Stderr (py "Must supply --prp or --prp-path")]).
Proof.
  intros os args cwd0 H1 H2.
  assert (E : main os args cwd0
              = (Exit (ExitMsg (py "Must supply --prp or --prp-path")), cwd0, [])).
  { unfold main. rewrite H1, H2. reflexivity. }
  split; [exact E|]. unfold run_script. rewrite E. reflexivity.
Qed.

Lemma main_without_selection_exits_witness :
  let os := Sample.world Sample.on_path (Exited 0 [] []) in
  let args := {| arg_prp_path := Some []; arg_prp := None; arg_interactive := false;
                 arg_driver := py "codex"; arg_cli := None;
                 arg_output_format := py "text" |} in
  run_script os args (py "/repo")
  = (Status 1, [Stderr (py "Must supply --prp or --prp-path")]).
Proof.
  intros os args.
  exact (proj2 (main_without_selection_exits os args (py "/repo") eq_refl eq_refl)).
Defined.

(** X8. When the selected document does not exist, seen from the directory
    the script was started in, the script exits with status 1 after the line
    [PRP not found: <path>] on standard error; the directory is not
    changed, nothing is read or launched and no trace file is written. *)
Theorem main_document_not_found_exits :
  forall (os : OS) (args : Args) (cwd0 : Path),
    given (arg_prp_path args) || given (arg_prp args) = true ->
    path_exists os cwd0 (selected_prp os args) = false ->
    main os args cwd0
    = (Exit (ExitMsg (py "PRP not found: " ++ selected_prp os args)), cwd0, [])
    /\ run_script os args cwd0
       = (Status 1, [Stderr (py "PRP not found: " ++ selected_prp os args)]).
Proof.
  intros os args cwd0 Hgiven Hmissing.
  assert (E : main os args cwd0
              = (Exit (ExitMsg (py "PRP not found: " ++ selected_prp os args)), cwd0, [])).
  { unfold main.
    assert (Hsel : negb (given (arg_prp_path args)) && negb (given (arg_prp args)) = false).
    { destruct (given (arg_prp_path args)), (given (arg_prp args));
        try reflexivity; discriminate. }
    rewrite Hsel. cbv zeta. unfold bind at 1. unfold getcwd. cbv beta iota.
    rewrite Hmissing. reflexivity. }
  split; [exact E|]. unfold run_script. rewrite E. reflexivity.
Qed.

Lemma main_document_not_found_exits_witness :
  let os := Sample.world Sample.on_path (Exited 0 [] []) in
  let args := {| arg_prp_path := None; arg_prp := Some (py "missing");
                 arg_interactive := false; arg_driver := py "codex"; arg_cli := None;
                 arg_output_format := py "text" |} in
  run_script os args (py "/repo")
  = (Status 1, [Stderr (py "PRP not found: /repo/PRPs/missing.md")]).
Proof.
  intros os args.
  exact (proj2 (main_document_not_found_exits os args (py "/repo") eq_refl eq_refl)).
Defined.



(** X10. [--prp-path] overrides [--prp]: when a document path is given, the
    run is the same whatever [--prp] says. *)
Theorem prp_path_overrides_prp :
  forall (os : OS) (args : Args) (other : option pystr) (cwd0 : Path),
    given (arg_prp_path args) = true ->
    main os args cwd0
    = main os {| arg_prp_path := arg_prp_path args;
                 arg_prp := other;
                 arg_interactive := arg_interactive args;
                 arg_driver := arg_driver args;
                 arg_cli := arg_cli args;
                 arg_output_format := arg_output_format args |} cwd0.
Proof.
  intros os args other cwd0 Hgiven.
  unfold main, selected_prp. cbn [arg_prp_path arg_prp arg_interactive arg_driver
                                  arg_cli arg_output_format].
  rewrite Hgiven. cbn [negb andb].
  destruct (arg_prp_path args) as [[|c rest]|]; try discriminate.
  reflexivity.
Qed.

Lemma prp_path_overrides_prp_witness :
  let os := Sample.world Sample.nothing_found NotFound in
  main os Sample.args_notes (py "/work")
  = main os {| arg_prp_path := Some (py "notes.md"); arg_prp := Some (py "test");
               arg_interactive := false; arg_driver := py "noop"; arg_cli := None;
               arg_output_format := py "text" |} (py "/work").
Proof.
  intros os.
  exact (prp_path_overrides_prp os Sample.args_notes (Some (py "test")) (py "/work") eq_refl).
Defined.

(** ** Launching *)

Lemma real_driver_lower os driver : real_driver driver -> real_driver (lower os driver).
Proof. intros [-> | ->]; [left | right]; reflexivity. Qed.

Lemma run_model_body_headless os self prompt driver cli output_format cwd path l :
  real_driver driver ->
  resolve_cli os (cli_name driver cli) cwd = (Done (Some path), cwd, l) ->
  run_model_body os self prompt driver cli false output_format cwd
  = let '(r, c, l2) :=
      run_headless os (command_for driver false output_format path prompt) output_format
        (self prompt (py "noop") None false output_format) cwd in
    (r, c, l ++ l2).
Proof.
  intros Hd E.
  destruct (real_driver_tests os driver Hd) as (Hlow & Hnoop & Hreal).
  unfold run_model_body. rewrite Hlow, Hnoop. cbv zeta.
  rewrite (bind_Done _ _ _ _ _ _ E). cbv beta iota.
  rewrite (bind_Done _ _ _ _ _ _
             (build_cmd_real driver false output_format path prompt cwd Hd)).
  cbv iota.
  destruct (run_headless os _ output_format _ cwd) as [[r c] l2].
  reflexivity.
Qed.

Lemma run_model_body_interactive os self prompt driver cli output_format cwd path l :
  real_driver driver ->
  resolve_cli os (cli_name driver cli) cwd = (Done (Some path), cwd, l) ->
  run_model_body os self prompt driver cli true output_format cwd
  = let cmd := command_for driver true output_format path prompt in
    let '(r, c, l2) :=
      try_except (subprocess_run_check os cmd)
        (fun e =>
           match e with
           | FileNotFoundError =>
               Some (eprint (py "Interactive CLI '" ++ hd [] cmd
                             ++ py "' not found. Falling back to local 'noop' driver.") ;;
                     self prompt (py "noop") None true output_format)
           | OSError msg =>
               Some (eprint (py "Interactive launch failed: " ++ msg
                             ++ py ". Falling back to headless text run.") ;;
                     self prompt driver (Some path) false (py "text"))
           | _ => None
           end) cwd in
    (r, c, l ++ l2).
Proof.
  intros Hd E.
  destruct (real_driver_tests os driver Hd) as (Hlow & Hnoop & Hreal).
  unfold run_model_body. rewrite Hlow, Hnoop. cbv zeta.
  rewrite (bind_Done _ _ _ _ _ _ E). cbv beta iota.
  rewrite (bind_Done _ _ _ _ _ _
             (build_cmd_real driver true output_format path prompt cwd Hd)).
  cbv iota.
  destruct (try_except _ _ cwd) as [[r c] l2].
  reflexivity.
Qed.

Lemma resolve_cli_found os name cwd path :
  result_of (resolve_cli os name cwd) = Done (Some path) ->
  resolve_cli os name cwd = (Done (Some path), cwd, log_of (resolve_cli os name cwd)).
Proof.
  intros H. destruct (resolve_cli_run os name cwd) as (r & l & E).
  rewrite E in H |- *. unfold result_of, log_of in *. simpl in *. subst r. reflexivity.
Qed.

Lemma subprocess_run_check_run os cmd cwd :
  subprocess_run_check os cmd cwd
  = (match spawn os cwd cmd Inherit with
     | NotFound => Raised FileNotFoundError
     | LaunchFailed msg => Raised (OSError msg)
     | Exited rc _ _ => if Z.eqb rc 0 then Done tt else Raised (CalledProcessError rc)
     | Interrupted _ => Raised KeyboardInterrupt
     end, cwd, [Spawn cwd cmd Inherit]).
Proof.
  unfold subprocess_run_check.
  rewrite (bind_Done _ _ _ _ _ _ (launch_run os cmd Inherit cwd)).
  destruct (spawn os cwd cmd Inherit) as [| msg | rc out err | out]; try reflexivity.
  destruct (Z.eqb rc 0); reflexivity.
Qed.

(** X11. With the driver noop, in any letter case, nothing is looked up or
    launched and the run cannot fail: [run_model] only prints to standard
    output and returns, whatever [--cli] says.  In headless mode every
    output format other than [stream-json] and [json] prints the marker
    line alone. *)
Theorem noop_driver_only_prints :
  forall (os : OS) (prompt driver : pystr) (cli : option pystr)
         (interactive : bool) (output_format : pystr) (cwd : Path),
    lower os driver = py "noop" ->
    run_model os prompt driver cli interactive output_format cwd
    = run_noop os prompt interactive output_format cwd
    /\ (exists canned,
           run_model os prompt driver cli interactive output_format cwd
           = (Done tt, cwd, canned)
           /\ Forall on_stdout canned)
    /\ (interactive = false ->
        output_format <> py "stream-json" ->
        output_format <> py "json" ->
        run_model os prompt driver cli interactive output_format cwd
        = (Done tt, cwd, [Stdout (py "PRP TEST OK")])).
Proof.
  intros os prompt driver cli interactive output_format cwd Hd.
  assert (E : run_model os prompt driver cli interactive output_format cwd
              = run_noop os prompt interactive output_format cwd).
  { unfold run_model. simpl run_model_fuel. unfold run_model_body.
    rewrite Hd. reflexivity. }
  rewrite E. split; [reflexivity|]. split.
  - destruct (run_noop_done os prompt interactive output_format cwd)
      as (canned & Hrun & Hout).
    exists canned. split; [exact Hrun|].
    eapply Forall_impl; [|exact Hout]. intros e [text ->]. exact I.
  - intros -> Hs Hj. unfold run_noop.
    rewrite (eqb_neq _ _ Hs), (eqb_neq _ _ Hj). reflexivity.
Qed.

Lemma noop_driver_only_prints_witness :
  let os := Sample.world Sample.on_path NotFound in
  run_model os (py "do it") (py "NoOp") (Some (py "my-agent")) false (py "xml") (py "/repo")
  = (Done tt, py "/repo", [Stdout (py "PRP TEST OK")]).
Proof.
  intros os.
  destruct (noop_driver_only_prints os (py "do it") (py "NoOp") (Some (py "my-agent"))
              false (py "xml") (py "/repo") eq_refl) as (_ & _ & H).
  apply H; [reflexivity | discriminate | discriminate].
Defined.

(** X12. A driver that is none of noop, codex and claude is refused after
    the lookup of the executable, not before: [run_model] looks up the name
    given with [--cli], or [claude] when none is given, and then exits with
    the message [Unknown driver: ...], which shows the name in lower case as
    [str.lower] gives it (the letters A to Z lowered for a name of ASCII
    characters), whether or not the executable was found; no command is
    built or launched for it. *)
Theorem unknown_driver_exits_after_lookup :
  forall (os : OS) (prompt driver : pystr) (cli : option pystr)
         (interactive : bool) (output_format : pystr) (cwd : Path)
         (found : option pystr),
    lower os driver <> py "noop" ->
    lower os driver <> py "codex" ->
    lower os driver <> py "claude" ->
    result_of (resolve_cli os (cli_name (lower os driver) cli) cwd) = Done found ->
    cli_name (lower os driver) None = py "claude"
    /\ run_model os prompt driver cli interactive output_format cwd
       = (Exit (ExitMsg (py "Unknown driver: " ++ lower os driver
                         ++ py " (expected 'codex' or 'claude')")),
          cwd, log_of (resolve_cli os (cli_name (lower os driver) cli) cwd))
    /\ (is_ascii driver = true -> lower os driver = ascii_lower driver)
    /\ (is_ascii driver = false -> lower os driver = unicode_lower os driver).
Proof.
  intros os prompt driver cli interactive output_format cwd found Hn Hc Hl Hres.
  split; [unfold cli_name; rewrite (eqb_neq _ _ Hc); reflexivity|].
  split; [|split; intros H; unfold lower, lower_with; rewrite H; reflexivity].
  destruct (resolve_cli_run os (cli_name (lower os driver) cli) cwd) as (r & l & E).
  rewrite E in Hres |- *. unfold result_of, log_of in *. simpl in Hres |- *. subst r.
  unfold run_model. simpl run_model_fuel. unfold run_model_body.
  rewrite (eqb_neq _ _ Hn). cbv zeta.
  rewrite (bind_Done _ _ _ _ _ _ E). cbv beta iota.
  rewrite (eqb_neq _ _ Hc), (eqb_neq _ _ Hl). cbn [orb].
  unfold bind, build_cmd. rewrite (eqb_neq _ _ Hc), (eqb_neq _ _ Hl).
  unfold sys_exit. destruct found; rewrite app_nil_r; reflexivity.
Qed.

Lemma unknown_driver_exits_after_lookup_witness :
  let os := Sample.world Sample.on_path (Exited 0 [] []) in
  run_model os (py "do it") (py "Gemini") None false (py "text") (py "/repo")
  = (Exit (ExitMsg (py "Unknown driver: gemini (expected 'codex' or 'claude')")),
     py "/repo", []).
Proof.
  intros os.
  refine (proj1 (proj2 (unknown_driver_exits_after_lookup os (py "do it") (py "Gemini")
                          None false (py "text") (py "/repo")
                          (Some (py "/usr/local/bin/claude")) _ _ _ eq_refl)));
    discriminate.
Defined.

(** X13. An executable that was resolved but is gone at launch time (a
    stale path) in interactive mode: [run_model] prints one line on
    standard error and simulates the session as the driver noop does,
    printing the prompt between the two noop lines, and returns. *)
Theorem interactive_stale_path_falls_back_to_noop :
  forall (os : OS) (prompt driver : pystr) (cli : option pystr)
         (output_format : pystr) (cwd path : Path),
    real_driver driver ->
    result_of (resolve_cli os (cli_name driver cli) cwd) = Done (Some path) ->
    spawn os cwd (command_for driver true output_format path prompt) Inherit = NotFound ->
    run_model os prompt driver cli true output_format cwd
    = (Done tt, cwd,
       log_of (resolve_cli os (cli_name driver cli) cwd)
       ++ [Spawn cwd (command_for driver true output_format path prompt) Inherit;
           Stderr (py "Interactive CLI '" ++ path
                   ++ py "' not found. Falling back to local 'noop' driver.");
           Stdout (py "[noop] Interactive session start." ++ [10]);
           Stdout prompt;
           Stdout ([10] ++ py "[noop] PRP TEST OK")]).
Proof.
  intros os prompt driver cli output_format cwd path Hd Hres Hspawn.
  unfold run_model. simpl run_model_fuel.
  rewrite (run_model_body_interactive os _ prompt driver cli output_format cwd path _
             Hd (resolve_cli_found os _ cwd path Hres)).
  cbv zeta. unfold try_except. rewrite subprocess_run_check_run, Hspawn.
  rewrite command_for_executable. reflexivity.
Qed.

Lemma interactive_stale_path_falls_back_to_noop_witness :
  let os := Sample.world Sample.on_path NotFound in
  result_of (run_model os (py "do it") (py "claude") None true (py "text") (py "/repo"))
  = Done tt.
Proof.
  intros os.
  rewrite (interactive_stale_path_falls_back_to_noop os (py "do it") (py "claude") None
             (py "text") (py "/repo") (py "/usr/local/bin/claude")
             (or_intror eq_refl) eq_refl eq_refl).
  reflexivity.
Defined.

(** X14. A launch that fails in interactive mode for another reason of the
    operating system (an argument list too long, say) is retried headless:
    after one line on standard error [run_model] runs again with the same
    driver, the resolved path as [--cli], not interactive and with the
    output format [text], whatever format was asked for. *)
Theorem interactive_launch_error_retries_headless :
  forall (os : OS) (prompt driver : pystr) (cli : option pystr)
         (output_format msg : pystr) (cwd path : Path),
    real_driver driver ->
    result_of (resolve_cli os (cli_name driver cli) cwd) = Done (Some path) ->
    spawn os cwd (command_for driver true output_format path prompt) Inherit
    = LaunchFailed msg ->
    run_model os prompt driver cli true output_format cwd
    = let '(r, c, retry) :=
        run_model os prompt driver (Some path) false (py "text") cwd in
      (r, c,
       log_of (resolve_cli os (cli_name driver cli) cwd)
       ++ Spawn cwd (command_for driver true output_format path prompt) Inherit
          :: Stderr (py "Interactive launch failed: " ++ msg
                     ++ py ". Falling back to headless text run.")
          :: retry).
Proof.
  intros os prompt driver cli output_format msg cwd path Hd Hres Hspawn.
  unfold run_model at 1. simpl run_model_fuel.
  rewrite (run_model_body_interactive os _ prompt driver cli output_format cwd path _
             Hd (resolve_cli_found os _ cwd path Hres)).
  cbv zeta. unfold try_except. rewrite subprocess_run_check_run, Hspawn.
  unfold bind, eprint, emit.
  change (run_model_body os (run_model_body os (fun _ _ _ _ _ => raise RecursionError))
            prompt driver (Some path) false (py "text") cwd)
    with (run_model_fuel os 2 prompt driver (Some path) false (py "text") cwd).
  rewrite <- (run_model_fuel_headless os 1 prompt driver (Some path) (py "text") cwd).
  change (run_model_fuel os 3) with (run_model os).
  destruct (run_model os prompt driver (Some path) false (py "text") cwd) as [[r c] retry].
  reflexivity.
Qed.

Lemma interactive_launch_error_retries_headless_witness :
  let os := Sample.world Sample.on_path (LaunchFailed (py "Argument list too long")) in
  exists r c retry,
    run_model os (py "do it") (py "claude") None true (py "json") (py "/repo")
    = (r, c,
       Spawn (py "/repo")
         [py "/usr/local/bin/claude"; py "--allowedTools"; ALLOWED_TOOLS] Inherit
       :: Stderr (py "Interactive launch failed: Argument list too long. Falling back to headless text run.")
       :: retry).
Proof.
  intros os.
  rewrite (interactive_launch_error_retries_headless os (py "do it") (py "claude") None
             (py "json") (py "Argument list too long") (py "/repo")
             (py "/usr/local/bin/claude") (or_intror eq_refl) eq_refl eq_refl).
  destruct (run_model _ _ _ _ _ _ _) as [[r c] retry].
  exists r, c, retry. reflexivity.
Defined.

Lemma which_found os name cwd path :
  which os cwd name = Some path ->
  resolve_cli os name cwd = (Done (Some path), cwd, []).
Proof.
  intros H. unfold resolve_cli. rewrite (bind_Done _ _ _ _ _ _ (eq_refl : getcwd cwd = _)).
  rewrite H. reflexivity.
Qed.

Lemma run_model_headless os prompt driver cli output_format cwd path :
  real_driver driver ->
  result_of (resolve_cli os (cli_name driver cli) cwd) = Done (Some path) ->
  run_model os prompt driver cli false output_format cwd
  = let '(r, c, l2) :=
      run_headless os (command_for driver false output_format path prompt) output_format
        (run_noop os prompt false output_format) cwd in
    (r, c, log_of (resolve_cli os (cli_name driver cli) cwd) ++ l2).
Proof.
  intros Hd Hres. unfold run_model. simpl run_model_fuel.
  rewrite (run_model_body_headless os _ prompt driver cli output_format cwd path _ Hd
             (resolve_cli_found os _ cwd path Hres)).
  reflexivity.
Qed.

(** X15. For the driver codex the headless retry after a failed interactive
    launch builds the very command of the interactive launch and launches
    it the same way, with the caller's own streams.  Where looking up the
    resolved path gives that path again and the launch fails again in the
    same way, the second failure is not caught: [run_model] ends with the
    OSError. *)
Theorem codex_retry_repeats_the_command :
  forall (os : OS) (prompt : pystr) (cli : option pystr)
         (output_format msg : pystr) (cwd path : Path),
    result_of (resolve_cli os (cli_name (py "codex") cli) cwd) = Done (Some path) ->
    which os cwd path = Some path ->
    spawn os cwd [path; flatten prompt] Inherit = LaunchFailed msg ->
    command_for (py "codex") true output_format path prompt
    = command_for (py "codex") false (py "text") path prompt
    /\ run_model os prompt (py "codex") cli true output_format cwd
       = (Raised (OSError msg), cwd,
          log_of (resolve_cli os (cli_name (py "codex") cli) cwd)
          ++ [Spawn cwd [path; flatten prompt] Inherit;
              Stderr (py "Interactive launch failed: " ++ msg
                      ++ py ". Falling back to headless text run.");
              Spawn cwd [path; flatten prompt] Inherit]).
Proof.
  intros os prompt cli output_format msg cwd path Hres Hwhich Hspawn.
  split; [reflexivity|].
  assert (Hd : real_driver (py "codex")) by (left; reflexivity).
  unfold run_model at 1. simpl run_model_fuel.
  rewrite (run_model_body_interactive os _ prompt (py "codex") cli output_format cwd path _
             Hd (resolve_cli_found os _ cwd path Hres)).
  cbv zeta. unfold try_except. rewrite subprocess_run_check_run.
  change (command_for (py "codex") true output_format path prompt)
    with [path; flatten prompt].
  rewrite Hspawn.
  unfold bind at 1, eprint, emit.
  change (run_model_body os (run_model_body os (fun _ _ _ _ _ => raise RecursionError))
            prompt (py "codex") (Some path) false (py "text") cwd)
    with (run_model_fuel os 2 prompt (py "codex") (Some path) false (py "text") cwd).
  unfold run_model_fuel.
  rewrite (run_model_body_headless os _ prompt (py "codex") (Some path) (py "text") cwd
             path [] Hd (which_found os path cwd path Hwhich)).
  change (command_for (py "codex") false (py "text") path prompt)
    with [path; flatten prompt].
  unfold run_headless.
  change (PyStr.eqb (py "text") (py "stream-json")) with false.
  change (PyStr.eqb (py "text") (py "json")) with false. cbv iota.
  rewrite subprocess_run_check_run, Hspawn. reflexivity.
Qed.

Lemma codex_retry_repeats_the_command_witness :
  let os := Sample.world (fun _ => Some (py "/usr/bin/codex"))
              (LaunchFailed (py "Argument list too long")) in
  result_of (run_model os (py "do it") (py "codex") None true (py "text") (py "/repo"))
  = Raised (OSError (py "Argument list too long")).
Proof.
  intros os.
  rewrite (proj2 (codex_retry_repeats_the_command os (py "do it") None (py "text")
                    (py "Argument list too long") (py "/repo") (py "/usr/bin/codex")
                    eq_refl eq_refl eq_refl)).
  reflexivity.
Defined.

(** X16. An executable that was resolved but is gone at launch time, in
    headless mode.  In the format [json] the run falls back to the driver
    noop and returns after printing its canned result.  In the format
    [stream-json] and in every other format (text) the FileNotFoundError
    is not caught: [run_model] raises it. *)
Theorem headless_stale_path :
  forall (os : OS) (prompt driver : pystr) (cli : option pystr)
         (output_format : pystr) (cwd path : Path),
    real_driver driver ->
    result_of (resolve_cli os (cli_name driver cli) cwd) = Done (Some path) ->
    let looked := log_of (resolve_cli os (cli_name driver cli) cwd) in
    let cmd := command_for driver false output_format path prompt in
    (output_format = py "json" ->
     spawn os cwd cmd Capture = NotFound ->
     run_model os prompt driver cli false output_format cwd
     = (Done tt, cwd,
        looked
        ++ [Spawn cwd cmd Capture;
            Stderr (py "Headless CLI '" ++ path
                    ++ py "' not found. Falling back to local 'noop' driver.");
            Stdout (json_dumps os (noop_result))]))
    /\ (output_format = py "stream-json" ->
        spawn os cwd cmd Pipe = NotFound ->
        run_model os prompt driver cli false output_format cwd
        = (Raised FileNotFoundError, cwd, looked ++ [Spawn cwd cmd Pipe]))
    /\ (output_format <> py "stream-json" ->
        output_format <> py "json" ->
        spawn os cwd cmd Inherit = NotFound ->
        run_model os prompt driver cli false output_format cwd
        = (Raised FileNotFoundError, cwd, looked ++ [Spawn cwd cmd Inherit])).
Proof.
  intros os prompt driver cli output_format cwd path Hd Hres looked cmd.
  rewrite (run_model_headless os prompt driver cli output_format cwd path Hd Hres).
  fold looked. fold cmd. unfold run_headless.
  assert (Hexe : hd [] cmd = path) by apply command_for_executable.
  split; [|split].
  - intros Hf Hspawn. rewrite Hf.
    change (PyStr.eqb (py "json") (py "stream-json")) with false.
    change (PyStr.eqb (py "json") (py "json")) with true. cbv iota.
    unfold bind at 1, try_except, bind at 1, subprocess_run_capture.
    rewrite (bind_Done _ _ _ _ _ _ (launch_run os cmd Capture cwd)).
    rewrite Hspawn, Hexe. reflexivity.
  - intros Hf Hspawn. rewrite Hf.
    change (PyStr.eqb (py "stream-json") (py "stream-json")) with true. cbv iota.
    rewrite (bind_Done _ _ _ _ _ _ (launch_run os cmd Pipe cwd)).
    rewrite Hspawn. reflexivity.
  - intros Hs Hj Hspawn.
    rewrite (eqb_neq _ _ Hs), (eqb_neq _ _ Hj).
    rewrite subprocess_run_check_run, Hspawn. reflexivity.
Qed.

Lemma headless_stale_path_witness :
  let os := Sample.world Sample.on_path NotFound in
  result_of (run_model os (py "do it") (py "claude") None false (py "json") (py "/repo"))
  = Done tt
  /\ result_of (run_model os (py "do it") (py "claude") None false (py "text") (py "/repo"))
     = Raised FileNotFoundError.
Proof.
  intros os. split.
  - destruct (headless_stale_path os (py "do it") (py "claude") None (py "json")
                (py "/repo") (py "/usr/local/bin/claude") (or_intror eq_refl) eq_refl)
      as (H & _ & _).
    rewrite (H eq_refl eq_refl). reflexivity.
  - destruct (headless_stale_path os (py "do it") (py "claude") None (py "text")
                (py "/repo") (py "/usr/local/bin/claude") (or_intror eq_refl) eq_refl)
      as (_ & _ & H).
    rewrite H; [reflexivity | discriminate | discriminate | reflexivity].
Defined.

(** ** Headless output *)





Lemma stream_loop_cwd os out cwd :
  cwd_of (for_each (stream_json_output os out) (stream_step os) cwd) = cwd.
Proof. apply (steady_stream os out cwd). Qed.



(** X20. An interrupt while the stream is read: once the lines that came
    before it are handled, the child is terminated, the line
    [Interrupted by user] goes to standard error and the run ends with
    code 1; the child is terminated before the exit, not left running. *)
Theorem stream_interrupt_terminates_the_child :
  forall (os : OS) (prompt driver : pystr) (cli : option pystr)
         (cwd path : Path) (out : list pystr),
    real_driver driver ->
    result_of (resolve_cli os (cli_name driver cli) cwd) = Done (Some path) ->
    spawn os cwd (command_for driver false (py "stream-json") path prompt) Pipe
    = Interrupted out ->
    let loop := for_each (stream_json_output os out) (stream_step os) cwd in
    result_of loop = Done tt ->
    run_model os prompt driver cli false (py "stream-json") cwd
    = (Exit (ExitCode 1), cwd,
       log_of (resolve_cli os (cli_name driver cli) cwd)
       ++ Spawn cwd (command_for driver false (py "stream-json") path prompt) Pipe
          :: log_of loop
       ++ [Terminate; Stderr ([10] ++ py "Interrupted by user")]).
Proof.
  intros os prompt driver cli cwd path out Hd Hres Hspawn loop Hloop.
  rewrite (run_model_headless os prompt driver cli (py "stream-json") cwd path Hd Hres).
  unfold run_headless.
  change (PyStr.eqb (py "stream-json") (py "stream-json")) with true. cbv iota.
  rewrite (bind_Done _ _ _ _ _ _ (launch_run os _ Pipe cwd)).
  rewrite Hspawn. cbv beta iota.
  pose proof (stream_loop_cwd os out cwd) as Hc. fold loop in Hc.
  unfold bind at 1. fold loop.
  destruct loop as [[r c] l]. unfold cwd_of, result_of, log_of in *. cbn [fst snd] in *.
  subst c r. reflexivity.
Qed.

Lemma stream_interrupt_terminates_the_child_witness :
  let os := Sample.world Sample.on_path (Interrupted [py "{}" ++ [10]]) in
  run_model os (py "do it") (py "claude") None false (py "stream-json") (py "/repo")
  = (Exit (ExitCode 1), py "/repo",
     [Spawn (py "/repo")
        (_build_cmd_claude false (py "stream-json") (py "/usr/local/bin/claude")
           (py "do it")) Pipe;
      Stdout (py "{}");
      Terminate;
      Stderr ([10] ++ py "Interrupted by user")]).
Proof.
  intros os.
  exact (stream_interrupt_terminates_the_child os (py "do it") (py "claude") None
           (py "/repo") (py "/usr/local/bin/claude") [py "{}" ++ [10]]
           (or_intror eq_refl) eq_refl eq_refl eq_refl).
Defined.

(** ** Interactive sessions *)

(** X21. An interactive session that was launched: [run_model] returns when
    the child ends with code 0 and raises CalledProcessError with the code
    otherwise; nothing is printed either way.  With the driver claude the
    command holds neither the prompt nor the output format, so the run is
    the same for every prompt and format: the PRP does not reach the
    child. *)
Theorem interactive_session_outcome :
  forall (os : OS) (prompt driver : pystr) (cli : option pystr)
         (output_format : pystr) (cwd path : Path)
         (rc : Z) (out : list pystr) (err : pystr),
    real_driver driver ->
    result_of (resolve_cli os (cli_name driver cli) cwd) = Done (Some path) ->
    spawn os cwd (command_for driver true output_format path prompt) Inherit
    = Exited rc out err ->
    run_model os prompt driver cli true output_format cwd
    = (if Z.eqb rc 0 then Done tt else Raised (CalledProcessError rc), cwd,
       log_of (resolve_cli os (cli_name driver cli) cwd)
       ++ [Spawn cwd (command_for driver true output_format path prompt) Inherit])
    /\ (driver = py "claude" ->
        command_for driver true output_format path prompt
        = [path; py "--allowedTools"; ALLOWED_TOOLS]
        /\ forall prompt' output_format',
            run_model os prompt' driver cli true output_format' cwd
            = run_model os prompt driver cli true output_format cwd).
Proof.
  intros os prompt driver cli output_format cwd path rc out err Hd Hres Hspawn.
  assert (Hrun : forall prompt' output_format',
    spawn os cwd (command_for driver true output_format' path prompt') Inherit
    = Exited rc out err ->
    run_model os prompt' driver cli true output_format' cwd
    = (if Z.eqb rc 0 then Done tt else Raised (CalledProcessError rc), cwd,
       log_of (resolve_cli os (cli_name driver cli) cwd)
       ++ [Spawn cwd (command_for driver true output_format' path prompt') Inherit])).
  { intros prompt' output_format' Hspawn'.
    unfold run_model. simpl run_model_fuel.
    rewrite (run_model_body_interactive os _ prompt' driver cli output_format' cwd path _
               Hd (resolve_cli_found os _ cwd path Hres)).
    cbv zeta. unfold try_except. rewrite subprocess_run_check_run, Hspawn'.
    destruct (Z.eqb rc 0); reflexivity. }
  split; [apply Hrun, Hspawn|].
  intros ->. split; [reflexivity|].
  intros prompt' output_format'.
  rewrite (Hrun prompt output_format Hspawn).
  rewrite (Hrun prompt' output_format' Hspawn). reflexivity.
Qed.

Lemma interactive_session_outcome_witness :
  let os := Sample.world Sample.on_path (Exited 0 [] []) in
  run_model os (py "one prompt") (py "claude") None true (py "json") (py "/repo")
  = run_model os (py "do it") (py "claude") None true (py "text") (py "/repo").
Proof.
  intros os.
  destruct (interactive_session_outcome os (py "do it") (py "claude") None (py "text")
              (py "/repo") (py "/usr/local/bin/claude") 0%Z [] []
              (or_intror eq_refl) eq_refl eq_refl) as [_ H].
  exact (proj2 (H eq_refl) (py "one prompt") (py "json")).
Defined.

(** ** Streamed messages *)

(** X22. What the loop over the stream does with one message.  A message
    that is not an object (a list, a string, a number) makes it raise before
    anything is printed.  For an object, progress lines go to standard error
    first and the message is echoed on standard output last, as
    [json.dumps] gives it; if formatting a progress line raises, the echo
    does not happen.  An object whose [type] is none of the three the loop
    knows is echoed and nothing else. *)
Theorem show_message_echoes_last :
  forall (os : OS) (message : json) (cwd : Path),
    match message with
    | JObj fields =>
        (exists progress,
            Forall on_stderr progress
            /\ (show_message os message cwd
                = (Done tt, cwd, progress ++ [Stdout (json_dumps os message)])
                \/ exists e, show_message os message cwd = (Raised e, cwd, progress)))
        /\ (is_str (dict_get (py "type") fields) (py "system") = false ->
            is_str (dict_get (py "type") fields) (py "assistant") = false ->
            is_str (dict_get (py "type") fields) (py "result") = false ->
            show_message os message cwd
            = (Done tt, cwd, [Stdout (json_dumps os message)]))
    | _ =>
        show_message os message cwd
        = (Raised (Unexpected "message has no get"), cwd, [])
    end.
Proof.
  intros os message cwd.
  destruct message as [| b | n | m e | s | items | fields]; try reflexivity.
  split.
  - unfold show_message, bind, eprint, print, emit, ret, raise, format_4f.
    destruct (_ && _).
    { eexists. split; [|left; reflexivity]. repeat constructor. }
    destruct (is_str _ (py "assistant")).
    { destruct (dict_get_default (py "message") _ _) as [| | | | | |inner];
        try (exists []; split; [constructor | right; eexists; reflexivity]).
      destruct (dict_get_default (py "content") _ _);
        try (exists []; split; [constructor | right; eexists; reflexivity]);
        (eexists; split; [|left; reflexivity]; repeat constructor). }
    destruct (is_str _ (py "result")).
    + destruct (fmt_4f os _) as [cost | e].
      * destruct (truthy _);
          (eexists; split; [|left; reflexivity]; repeat constructor).
      * eexists. split; [|right; eexists; reflexivity]. repeat constructor.
    + exists []. split; [constructor | left; reflexivity].
  - intros Hs Ha Hr. unfold show_message. rewrite Hs, Ha, Hr. reflexivity.
Qed.

Lemma show_message_echoes_last_witness :
  let os := Sample.world Sample.on_path NotFound in
  show_message os (JObj [(py "type", JStr (py "tool_use"))]) (py "/repo")
  = (Done tt, py "/repo", [Stdout (py "{...}")]).
Proof.
  intros os.
  exact (proj2 (show_message_echoes_last os (JObj [(py "type", JStr (py "tool_use"))])
                  (py "/repo")) eq_refl eq_refl eq_refl).
Defined.

(** ** Looking up the executable *)

Lemma powershell_lookup_spec os shells cli cwd :
  let r := powershell_lookup os shells cli cwd in
  cwd_of r = cwd
  /\ (List.length (log_of r) <= List.length shells)%nat
  /\ Forall (fun e => match e with
                      | Spawn c (shell :: _) Capture => c = cwd /\ In shell shells
                      | _ => False
                      end) (log_of r)
  /\ (forall path,
         result_of r = Done (Some path) ->
         path <> [] /\ path_exists os cwd (path_of os path) = true /\ log_of r <> []).
Proof.
  induction shells as [|pwsh more IH]; cbn zeta.
  - simpl. repeat split; try constructor; discriminate.
  - cbn [powershell_lookup].
    rewrite (bind_Done _ _ _ _ _ _ (launch_run os _ Capture cwd)).
    cbn zeta in IH. destruct IH as (IHc & IHlen & IHlog & IHres).
    destruct (powershell_lookup os more cli cwd) as [[r0 c0] l0] eqn:Emore.
    unfold cwd_of, log_of, result_of in IHc, IHlen, IHlog, IHres.
    cbn [fst snd] in IHc, IHlen, IHlog, IHres. subst c0.
    set (first := Spawn cwd
                    [pwsh; py "-NoProfile"; py "-Command";
                     py "(Get-Command " ++ cli
                     ++ py " -ErrorAction SilentlyContinue) | Select-Object -ExpandProperty Source"]
                    Capture).
    assert (Hfirst : match first with
                     | Spawn c (shell :: _) Capture => c = cwd /\ In shell (pwsh :: more)
                     | _ => False
                     end) by (split; [reflexivity | left; reflexivity]).
    assert (Hmore :
      let r' := (r0, cwd, first :: l0) in
      cwd_of r' = cwd
      /\ (List.length (log_of r') <= List.length (pwsh :: more))%nat
      /\ Forall (fun e => match e with
                          | Spawn c (shell :: _) Capture => c = cwd /\ In shell (pwsh :: more)
                          | _ => False
                          end) (log_of r')
      /\ (forall path,
             result_of r' = Done (Some path) ->
             path <> [] /\ path_exists os cwd (path_of os path) = true /\ log_of r' <> [])).
    { cbv zeta. unfold cwd_of, log_of, result_of. cbn [fst snd].
      split; [reflexivity|]. split; [simpl; lia|]. split.
      - constructor; [exact Hfirst|].
        eapply Forall_impl; [|exact IHlog].
        intros [| | | | |c [|sh rest] []|]; try contradiction.
        intros [Hc Hin]. split; [exact Hc | right; exact Hin].
      - intros path Hpath. destruct (IHres path Hpath) as (H1 & H2 & _).
        repeat split; [exact H1 | exact H2 | discriminate]. }
    cbv zeta in Hmore.
    destruct (spawn os cwd _ Capture) as [| msg | rc out err | out].
    + rewrite Emore. exact Hmore.
    + rewrite Emore. exact Hmore.
    + rewrite (bind_Done _ _ _ _ _ _ (eq_refl : getcwd cwd = (Done cwd, cwd, []))).
      destruct (strip_chars _ _) as [|c t] eqn:Ecand; [rewrite Emore; exact Hmore|].
      destruct (path_exists os cwd _) eqn:Eex; [|rewrite Emore; exact Hmore].
      unfold ret, cwd_of, log_of, result_of. cbn [fst snd app].
      split; [reflexivity|]. split; [simpl; lia|]. split.
      * constructor; [exact Hfirst | constructor].
      * intros path Hpath. injection Hpath as <-.
        repeat split; [discriminate | exact Eex | discriminate].
    + unfold raise, cwd_of, log_of, result_of. cbn [fst snd app].
      split; [reflexivity|]. split; [simpl; lia|]. split.
      * constructor; [exact Hfirst | constructor].
      * intros path Hpath. discriminate.
Qed.

(** X23. PowerShell is asked only on Windows and only when the search path
    does not know the name: elsewhere, and whenever [shutil.which] finds
    the name, the lookup launches nothing and its answer is that of
    [shutil.which]. *)
Theorem lookup_without_powershell :
  forall (os : OS) (name : pystr) (cwd : Path),
    (platform_win os = false ->
     resolve_cli os name cwd = (Done (which os cwd name), cwd, []))
    /\ (forall path,
           which os cwd name = Some path ->
           resolve_cli os name cwd = (Done (Some path), cwd, [])).
Proof.
  intros os name cwd. split.
  - intros Hwin. unfold resolve_cli.
    rewrite (bind_Done _ _ _ _ _ _ (eq_refl : getcwd cwd = (Done cwd, cwd, []))).
    destruct (which os cwd name); [reflexivity|]. rewrite Hwin. reflexivity.
  - intros path. apply which_found.
Qed.

Lemma lookup_without_powershell_witness :
  resolve_cli (Sample.world Sample.nothing_found NotFound) (py "codex") (py "/repo")
  = (Done None, py "/repo", []).
Proof.
  exact (proj1 (lookup_without_powershell (Sample.world Sample.nothing_found NotFound)
                  (py "codex") (py "/repo")) eq_refl).
Defined.

(** X24. A path that the lookup found although the search path does not
    know the name came from PowerShell on Windows: it is not empty, it
    exists on disk, and the lookup launched one or two shells, [powershell]
    and [pwsh], each with its output captured and from the current
    directory. *)
Theorem powershell_candidate_exists :
  forall (os : OS) (name : pystr) (cwd path : Path),
    which os cwd name = None ->
    result_of (resolve_cli os name cwd) = Done (Some path) ->
    platform_win os = true
    /\ path <> []
    /\ path_exists os cwd (path_of os path) = true
    /\ (1 <= List.length (log_of (resolve_cli os name cwd)) <= 2)%nat
    /\ Forall is_powershell_lookup (log_of (resolve_cli os name cwd)).
Proof.
  intros os name cwd path Hwhich Hres.
  unfold resolve_cli in *.
  rewrite (bind_Done _ _ _ _ _ _ (eq_refl : getcwd cwd = (Done cwd, cwd, []))) in *.
  rewrite Hwhich in *.
  destruct (platform_win os); [|discriminate].
  destruct (powershell_lookup_spec os [py "powershell"; py "pwsh"] name cwd)
    as (_ & Hlen & Hlog & Hfound).
  destruct (powershell_lookup os [py "powershell"; py "pwsh"] name cwd) as [[r c] l].
  unfold result_of, log_of, cwd_of in *. cbn [fst snd app] in *.
  destruct (Hfound path Hres) as (H1 & H2 & H3).
  split; [reflexivity|]. split; [exact H1|]. split; [exact H2|]. split.
  - split; [destruct l; [contradiction | simpl; lia] | exact Hlen].
  - eapply Forall_impl; [|exact Hlog].
    intros [| | | | |c0 [|sh rest] []|]; try contradiction.
    intros [_ [<- | [<- | []]]]; [left | right]; reflexivity.
Qed.

Lemma powershell_candidate_exists_witness :
  resolve_cli SampleWindows.world (py "claude") (py "C:\repo")
  = (Done (Some SampleWindows.claude_exe), py "C:\repo",
     log_of (resolve_cli SampleWindows.world (py "claude") (py "C:\repo")))
  /\ path_exists SampleWindows.world (py "C:\repo")
       (path_of SampleWindows.world SampleWindows.claude_exe) = true.
Proof.
  split; [vm_compute; reflexivity|].
  exact (proj1 (proj2 (proj2 (powershell_candidate_exists SampleWindows.world (py "claude")
                                (py "C:\repo") SampleWindows.claude_exe eq_refl eq_refl)))).
Defined.

(** ** More on the stream and on the text path *)

Lemma for_each_Warn os warning content items cwd :
  for_each (Warn warning content :: items) (stream_step os) cwd
  = let '(r, c, l) := for_each items (stream_step os) cwd in
    (r, c, Stderr warning :: Stderr content :: l).
Proof.
  cbn [for_each stream_step]. unfold bind, eprint, emit.
  destruct (for_each items (stream_step os) cwd) as [[r c] l]. reflexivity.
Qed.

(** X25. Lines that [json.loads] rejects with JSONDecodeError never abort
    the stream: when every line of the child is blank or is rejected with
    that exception, handling the lines raises nothing and writes only
    warnings, all on standard error, two for each line that is not blank. *)
Theorem decode_errors_never_abort_the_stream :
  forall (os : OS) (out : list pystr) (cwd : Path),
    Forall (fun line => strip line <> [] ->
                        exists e, json_loads os (strip line) = JSONDecodeError e) out ->
    let loop := for_each (stream_json_output os out) (stream_step os) cwd in
    result_of loop = Done tt
    /\ cwd_of loop = cwd
    /\ Forall on_stderr (log_of loop)
    /\ List.length (log_of loop)
       = (2 * List.length (filter nonblank (List.map strip out)))%nat.
Proof.
  intros os out cwd Hout. cbv zeta.
  induction Hout as [|line rest Hline _ IH]; [repeat split; constructor|].
  cbn [stream_json_output List.map filter].
  destruct (strip line) as [|c l] eqn:E; [exact IH|].
  destruct Hline as [e He]; [discriminate|]. rewrite He.
  cbn [nonblank]. rewrite for_each_Warn.
  destruct (for_each _ _ cwd) as [[r c'] l'].
  unfold result_of, cwd_of, log_of in *. cbn [fst snd app] in *.
  destruct IH as (Hr & Hc & Hl & Hn).
  split; [exact Hr|]. split; [exact Hc|]. split.
  - repeat constructor. exact Hl.
  - simpl. simpl in Hn. lia.
Qed.

Lemma decode_errors_never_abort_the_stream_witness :
  let os := Sample.world Sample.on_path NotFound in
  for_each (stream_json_output os [py "oops" ++ [10]; [10]; py "{" ++ [10]])
    (stream_step os) (py "/repo")
  = (Done tt, py "/repo",
     [Stderr (py "Warning: Failed to parse JSON line: Expecting value: line 1 column 1 (char 0)");
      Stderr (py "Line content: oops");
      Stderr (py "Warning: Failed to parse JSON line: Expecting value: line 1 column 1 (char 0)");
      Stderr (py "Line content: {")]).
Proof.
  intros os.
  assert (H := decode_errors_never_abort_the_stream os
                 [py "oops" ++ [10]; [10]; py "{" ++ [10]]
                 (py "/repo")).
  cbv zeta in H.
  destruct H as (Hr & _).
  - repeat constructor; intros _; eexists; reflexivity.
  - reflexivity.
Defined.

(** X26. A line that parses but is not an object (a list, a string, a
    number, [null]) does abort the stream: handling it raises at once,
    nothing is echoed for it and the lines after it are never handled. *)
Theorem non_object_line_aborts_the_stream :
  forall (os : OS) (line : pystr) (rest : list pystr) (message : json) (cwd : Path),
    strip line <> [] ->
    json_loads os (strip line) = Loaded message ->
    match message with JObj _ => False | _ => True end ->
    for_each (stream_json_output os (line :: rest)) (stream_step os) cwd
    = (Raised (Unexpected "message has no get"), cwd, []).
Proof.
  intros os line rest message cwd Hline Hloads Hshape.
  cbn [stream_json_output].
  destruct (strip line) as [|c l]; [congruence|]. rewrite Hloads.
  cbn [for_each stream_step]. unfold bind.
  destruct message; try contradiction; reflexivity.
Qed.

Lemma non_object_line_aborts_the_stream_witness :
  let os := Sample.world Sample.on_path NotFound in
  for_each (stream_json_output os [py "[]" ++ [10]; py "{}" ++ [10]])
    (stream_step os) (py "/repo")
  = (Raised (Unexpected "message has no get"), py "/repo", []).
Proof.
  intros os.
  refine (non_object_line_aborts_the_stream os (py "[]" ++ [10]) [py "{}" ++ [10]]
            (JArr []) (py "/repo") _ eq_refl I).
  discriminate.
Defined.

(** X27. Every output format other than [stream-json] and [json] runs as
    text: the child is launched on the caller's own streams and
    [run_model] prints nothing itself; it returns when the child ends with
    code 0 and raises CalledProcessError with the code otherwise. *)
Theorem other_formats_run_as_text :
  forall (os : OS) (prompt driver : pystr) (cli : option pystr)
         (output_format : pystr) (cwd path : Path)
         (rc : Z) (out : list pystr) (err : pystr),
    real_driver driver ->
    output_format <> py "stream-json" ->
    output_format <> py "json" ->
    result_of (resolve_cli os (cli_name driver cli) cwd) = Done (Some path) ->
    spawn os cwd (command_for driver false output_format path prompt) Inherit
    = Exited rc out err ->
    run_model os prompt driver cli false output_format cwd
    = (if Z.eqb rc 0 then Done tt else Raised (CalledProcessError rc), cwd,
       log_of (resolve_cli os (cli_name driver cli) cwd)
       ++ [Spawn cwd (command_for driver false output_format path prompt) Inherit]).
Proof.
  intros os prompt driver cli output_format cwd path rc out err Hd Hs Hj Hres Hspawn.
  rewrite (run_model_headless os prompt driver cli output_format cwd path Hd Hres).
  unfold run_headless. rewrite (eqb_neq _ _ Hs), (eqb_neq _ _ Hj).
  rewrite subprocess_run_check_run, Hspawn.
  destruct (Z.eqb rc 0); reflexivity.
Qed.

Lemma other_formats_run_as_text_witness :
  let os := Sample.world Sample.on_path (Exited 0 [py "done"] []) in
  run_model os (py "do it") (py "codex") None false (py "text") (py "/repo")
  = (Done tt, py "/repo",
     [Spawn (py "/repo") [py "/usr/local/bin/codex"; py "do it"] Inherit]).
Proof.
  intros os.
  refine (other_formats_run_as_text os (py "do it") (py "codex") None (py "text")
            (py "/repo") (py "/usr/local/bin/codex") 0%Z [py "done"] []
            (or_introl eq_refl) _ _ eq_refl eq_refl); discriminate.
Defined.

(** X28. A document that passed the existence test but cannot be read
    ends the script with status 1 and a traceback on standard error; the
    read happens outside the handler of [main], so no trace file is
    written and no child is launched. *)
Theorem unreadable_document_leaves_no_trace_file :
  forall (os : OS) (args : Args) (cwd0 : Path) (e : exn),
    given (arg_prp_path args) || given (arg_prp args) = true ->
    path_exists os cwd0 (selected_prp os args) = true ->
    read_text os (ROOT os) (selected_prp os args) = inr e ->
    is_Exception e = true ->
    run_script os args cwd0
    = (Status 1,
       [Chdir (ROOT os); ReadText (ROOT os) (selected_prp os args);
        Stderr (format_exc os e)]).
Proof.
  intros os args cwd0 e Hgiven Hexists Hread He.
  unfold run_script.
  rewrite (main_validated os args cwd0 Hgiven Hexists).
  rewrite (bind_Done _ _ _ _ _ _ (chdir_run (ROOT os) cwd0)).
  rewrite (bind_Raised _ _ _ _ _ _
             (build_prompt_fails os (ROOT os) (selected_prp os args) e Hread)).
  destruct e; try reflexivity; discriminate.
Qed.

Lemma unreadable_document_leaves_no_trace_file_witness :
  run_script (Sample.world Sample.nothing_found NotFound) Sample.args_notes (py "/work")
  = (Status 1,
     [Chdir (py "/repo"); ReadText (py "/repo") (py "notes.md");
      Stderr (py "Traceback (most recent call last): ...")]).
Proof.
  exact (unreadable_document_leaves_no_trace_file
           (Sample.world Sample.nothing_found NotFound) Sample.args_notes (py "/work")
           FileNotFoundError eq_refl eq_refl eq_refl eq_refl).
Defined.
